(** * CompressedFont: batch font subsetting (main.py)

    A shallow embedding of [main.py] and the properties of its
    orchestration logic: font discovery, collection inspection, the
    subset invoker and the batch loop.

    Python values are modelled as follows: [str] as [string] (the
    texts the program handles are taken to be ASCII), [int] as [Z],
    [Optional[int]] as [option Z], [list] as [list], [bool] as [bool].
    The file system, the console and the external processes are an
    explicit world that is threaded through the program.  The library
    functions follow CPython on a POSIX system: [glob] and [fnmatch]
    compare names case-sensitively, and [Path.suffix] needs a dot that
    is neither the first nor the last character of the name. *)

From Stdlib Require Import ZArith NArith List Ascii String Bool Lia.
From Stdlib Require Import DecimalString DecimalZ DecimalPos.
From stdpp Require Import base option list gmap strings.

Local Open Scope Z_scope.

(* ===================================================================== *)
(** * Python strings *)
(* ===================================================================== *)

Module PyStr.

(** [len(s)] *)
Definition len (s : string) : nat := String.length s.

(** [s[i:]] and [s[:i]] for [0 <= i]. *)
Fixpoint drop (i : nat) (s : string) : string :=
  match i, s with
  | O, _ => s
  | S i', String _ s' => drop i' s'
  | S _, EmptyString => EmptyString
  end.

Fixpoint take (i : nat) (s : string) : string :=
  match i, s with
  | O, _ => EmptyString
  | S i', String a s' => String a (take i' s')
  | S _, EmptyString => EmptyString
  end.

(** [s.startswith(p)] *)
Fixpoint startswith (p s : string) : bool :=
  match p, s with
  | EmptyString, _ => true
  | String a p', String b s' => Ascii.eqb a b && startswith p' s'
  | String _ _, EmptyString => false
  end.

(** [s.removeprefix]-like helper: the rest of [s] after [p], if [s]
    starts with [p]. *)
Fixpoint strip_prefix (p s : string) : option string :=
  match p, s with
  | EmptyString, _ => Some s
  | String a p', String b s' =>
      if Ascii.eqb a b then strip_prefix p' s' else None
  | String _ _, EmptyString => None
  end.

(** [s.rfind(c)] for a one-character needle; [None] stands for [-1]. *)
Fixpoint rfind (c : ascii) (s : string) : option nat :=
  match s with
  | EmptyString => None
  | String a s' =>
      match rfind c s' with
      | Some i => Some (S i)
      | None => if Ascii.eqb a c then Some O else None
      end
  end.

(** [c.lower()], [c.upper()] on the ASCII letters. *)
Definition lower_char (c : ascii) : ascii :=
  let n := nat_of_ascii c in
  if (Nat.leb 65 n && Nat.leb n 90)%bool then ascii_of_nat (n + 32) else c.

Definition upper_char (c : ascii) : ascii :=
  let n := nat_of_ascii c in
  if (Nat.leb 97 n && Nat.leb n 122)%bool then ascii_of_nat (n - 32) else c.

Fixpoint smap (f : ascii -> ascii) (s : string) : string :=
  match s with
  | EmptyString => EmptyString
  | String a s' => String (f a) (smap f s')
  end.

(** [s.lower()], [s.upper()] *)
Definition lower : string -> string := smap lower_char.
Definition upper : string -> string := smap upper_char.

(** [s.split(sep)] for a one-character separator. *)
Fixpoint split (sep : ascii) (s : string) : list string :=
  match s with
  | EmptyString => [EmptyString]
  | String a s' =>
      if Ascii.eqb a sep then EmptyString :: split sep s'
      else match split sep s' with
           | w :: ws => String a w :: ws
           | [] => [String a EmptyString]
           end
  end.

(** The decimal digits matched by the pattern [\d] on ASCII text. *)
Definition is_digit (c : ascii) : bool :=
  let n := nat_of_ascii c in (Nat.leb 48 n && Nat.leb n 57)%bool.

(** Whether the first character of [s] is a digit. *)
Definition starts_with_digit (s : string) : bool :=
  match s with
  | String a _ => is_digit a
  | EmptyString => false
  end.

(** [str(z)] and the [{z}] replacement field of an f-string. *)
Definition str (z : Z) : string := NilZero.string_of_int (Z.to_int z).

(** [int(s)] on a non-empty run of decimal digits; [None] stands for
    [ValueError]. *)
Definition int (s : string) : option Z :=
  match NilZero.uint_of_string s with
  | Some d => Some (Z.of_uint d)
  | None => None
  end.

(** [s.endswith(suf)] *)
Definition endswith (suf s : string) : bool :=
  (Nat.leb (len suf) (len s) && String.eqb suf (drop (len s - len suf) s))%bool.

End PyStr.

(* ===================================================================== *)
(** * os.path and pathlib (POSIX flavour) *)
(* ===================================================================== *)

Module OsPath.

(** [os.path.join(a, b)] *)
Definition join (a b : string) : string :=
  if PyStr.startswith "/" b then b
  else match a with
       | EmptyString => b
       | _ => if PyStr.startswith "/" (String.rev a) then a +:+ b
              else a +:+ "/" +:+ b
       end.

(** The parts of a [PurePosixPath]: empty and ["."] components are
    dropped. *)
Definition parts (p : string) : list string :=
  List.filter (fun c => negb (String.eqb c "" || String.eqb c ".")) (PyStr.split "/" p).

(** [Path(p).name]: the final component, or [""]. *)
Definition name (p : string) : string := List.last (parts p) "".

(** [os.path.basename(p)]: whatever follows the last slash. *)
Definition basename (p : string) : string := List.last (PyStr.split "/" p) "".

(** The position of the dot that starts the suffix of a name:
    [i = name.rfind('.')] with [0 < i < len(name) - 1]. *)
Definition suffix_pos (n : string) : option nat :=
  match PyStr.rfind "." n with
  | Some i =>
      if (Nat.ltb 0 i && Nat.ltb i (PyStr.len n - 1))%bool then Some i else None
  | None => None
  end.

(** [Path(p).suffix] *)
Definition suffix (p : string) : string :=
  let n := name p in
  match suffix_pos n with
  | Some i => PyStr.drop i n
  | None => ""
  end.

(** [Path(p).stem] *)
Definition stem (p : string) : string :=
  let n := name p in
  match suffix_pos n with
  | Some i => PyStr.take i n
  | None => n
  end.

End OsPath.

(* ===================================================================== *)
(** * re, fnmatch and glob *)
(* ===================================================================== *)

Module Re.

(** The longest run of digits at the start of [s]: what the greedy
    group [(\d+)] captures when it is the last item of the pattern. *)
Fixpoint digits (s : string) : string :=
  match s with
  | String a s' => if PyStr.is_digit a then String a (digits s') else EmptyString
  | EmptyString => EmptyString
  end.

(** [re.match(r'between 0 and (\d+)', s)]: group 1 of a match that
    starts at the first character of [s]. *)
Definition match_range (s : string) : option string :=
  match PyStr.strip_prefix "between 0 and " s with
  | Some rest =>
      match digits rest with
      | EmptyString => None
      | ds => Some ds
      end
  | None => None
  end.

(** [re.search(r'between 0 and (\d+)', s)]: group 1 of the leftmost
    match. *)
Fixpoint search_range (s : string) : option string :=
  match match_range s with
  | Some g => Some g
  | None =>
      match s with
      | EmptyString => None
      | String _ s' => search_range s'
      end
  end.

End Re.

Module Glob.

(** [fnmatch.fnmatchcase(name, pat)] for patterns built from literal
    characters, [*] and [?] (the patterns of [main.py] contain no
    bracket expression). *)
Fixpoint fnmatchcase (pat name : string) {struct pat} : bool :=
  match pat with
  | EmptyString =>
      match name with EmptyString => true | String _ _ => false end
  | String c pat' =>
      if Ascii.eqb c "*" then
        (fix star (n : string) : bool :=
           fnmatchcase pat' n ||
           match n with
           | EmptyString => false
           | String _ n' => star n'
           end) name
      else if Ascii.eqb c "?" then
        match name with
        | String _ n' => fnmatchcase pat' n'
        | EmptyString => false
        end
      else
        match name with
        | String d n' => Ascii.eqb c d && fnmatchcase pat' n'
        | EmptyString => false
        end
  end.

(** Whether a pattern has a [*] or a [?]. *)
Fixpoint has_wildcard (pat : string) : bool :=
  match pat with
  | EmptyString => false
  | String c pat' =>
      Ascii.eqb c "*" || Ascii.eqb c "?" || has_wildcard pat'
  end.

(** [glob._ishidden] *)
Definition _ishidden (s : string) : bool := PyStr.startswith "." s.

(** [glob._glob1]: the names of a directory listing that match a
    pattern; names that start with a dot only match a pattern that
    starts with a dot. *)
Definition _glob1 (names : list string) (pattern : string) : list string :=
  let names :=
    if _ishidden pattern then names
    else List.filter (fun x => negb (_ishidden x)) names in
  List.filter (fun x => fnmatchcase pattern x) names.

End Glob.

(* ===================================================================== *)
(** * The world: file system, console, external processes *)
(* ===================================================================== *)

(** The exceptions the program distinguishes in its handlers. *)
Inductive exn : Type :=
| FileNotFoundError
| FileExistsError
| ZeroDivisionError
| UnboundLocalError
| TTLibFileIsCollectionError (msg : string)
| OtherError (msg : string).

(** A file-system node: what [os.stat] and [os.scandir] tell about a
    path. *)
Inductive node : Type :=
| File (st_size : N)
| Dir (st_size : N) (entries : list string).

(** The lines of the console report that carry a diagnostic or a
    result.  Progress lines, separators and the echo of the command
    are left out; the report is not part of any interface. *)
Inductive line : Type :=
| MsgFontMissing (font_file : string)            (* main.py:71 *)
| MsgTextMissing (text_file : string)            (* main.py:75 *)
| MsgSuccess (output_name : string)              (* main.py:115 *)
| MsgSizes (original compressed : N)             (* main.py:122-124 *)
| MsgFailed (stderr : string)                    (* main.py:129 *)
| MsgToolNotFound                                (* main.py:133 *)
| MsgError (e : exn)                             (* main.py:136 *)
| MsgNoSourceDir (source_dir : string)           (* main.py:152 *)
| MsgNoTextFile (text_file : string)             (* main.py:156 *)
| MsgNoFonts (source_dir : string)               (* main.py:166-167 *)
| MsgSummary (files total ok failed : Z).        (* main.py:218-225 *)

(** One call of [compress_single_font] together with what it
    returned. *)
Record job : Type := Job {
  job_file : string;
  job_index : option Z;
  job_ok : bool
}.

(** The state threaded through the program.  [calls] (the argument
    vectors given to [subprocess.run]) and [jobs] are ghost logs. *)
Record World : Type := mkWorld {
  fs : gmap string node;
  console : list line;
  calls : list (list string);
  jobs : list job
}.

Definition set_fs (m : gmap string node) (w : World) : World :=
  mkWorld m (console w) (calls w) (jobs w).
Definition print (l : line) (w : World) : World :=
  mkWorld (fs w) (console w ++ [l]) (calls w) (jobs w).
Definition log_call (cmd : list string) (w : World) : World :=
  mkWorld (fs w) (console w) (calls w ++ [cmd]) (jobs w).
Definition log_job (j : job) (w : World) : World :=
  mkWorld (fs w) (console w) (calls w) (jobs w ++ [j]).

(** The external collaborators: the fontTools library (whether
    [from fontTools import ttLib] succeeds, and what its parser entry
    point [ttLib.TTFont] answers) and the [fonttools] executable
    started by [subprocess.run].  The result of the process is its
    return code and its error stream. *)
Class External : Type := {
  ttLib_importable : bool;
  TTFont : gmap string node -> string -> exn + unit;
  subprocess_run :
    gmap string node -> list string -> (exn + Z * string) * gmap string node
}.

(** Computations that read and change the world and may raise. *)
Definition M (A : Type) : Type := World -> (exn + A) * World.

Definition ret {A} (a : A) : M A := fun w => (inr a, w).
Definition raise {A} (e : exn) : M A := fun w => (inl e, w).
Definition bind {A B} (m : M A) (k : A -> M B) : M B :=
  fun w =>
    match m w with
    | (inr a, w') => k a w'
    | (inl e, w') => (inl e, w')
    end.
Definition say (l : line) : M unit := fun w => (inr tt, print l w).

Notation "'let!' x := m 'in' k" := (bind m (fun x => k))
  (at level 10, x name, m at level 100, k at level 200).

(** [os.path.exists] *)
Definition os_path_exists (p : string) : M bool :=
  fun w => (inr (bool_decide (is_Some (fs w !! p))), w).

(** [os.stat(p).st_size] of an existing node. *)
Definition size_of (n : node) : N :=
  match n with
  | File sz => sz
  | Dir sz _ => sz
  end.

(** [os.path.getsize] *)
Definition os_path_getsize (p : string) : M N :=
  fun w =>
    match fs w !! p with
    | Some n => (inr (size_of n), w)
    | None => (inl FileNotFoundError, w)
    end.

(** [os.makedirs(p, exist_ok=True)] for a path of one component. *)
Definition os_makedirs (p : string) : M unit :=
  fun w =>
    match fs w !! p with
    | Some (Dir _ _) => (inr tt, w)
    | Some (File _) => (inl FileExistsError, w)
    | None => (inr tt, set_fs (<[p := Dir 0 []]> (fs w)) w)
    end.

(** [glob.glob(os.path.join(dirname, pattern))] for a directory name
    without wildcard: the listing of [dirname] (empty when it is not a
    directory) filtered by the pattern, each name joined to
    [dirname]. *)
Definition glob_glob (m : gmap string node) (dirname pattern : string)
  : list string :=
  let names :=
    match m !! dirname with
    | Some (Dir _ entries) => entries
    | _ => []
    end in
  map (OsPath.join dirname) (Glob._glob1 names pattern).

(** [subprocess.run(cmd, capture_output=True, text=True)] *)
Definition run `{External} (cmd : list string) : M (Z * string) :=
  fun w =>
    let '(r, m') := subprocess_run (fs w) cmd in
    (r, set_fs m' (log_call cmd w)).

(** [range(n)] *)
Definition range (n : Z) : list Z := map Z.of_nat (seq 0 (Z.to_nat n)).

(* ===================================================================== *)
(** * main.py *)
(* ===================================================================== *)

Section Program.

Context `{External}.

(** ** get_font_files (main.py:19-29) *)

Definition font_extensions : list string :=
  ["*.ttf"; "*.otf"; "*.woff"; "*.woff2"; "*.ttc"].

Definition get_font_files (m : gmap string node) (source_dir : string)
  : list string :=
  fold_left
    (fun font_files ext =>
       (font_files ++ glob_glob m source_dir ext)
         ++ glob_glob m source_dir (PyStr.upper ext))
    font_extensions [].

(** ** get_font_count_in_collection (main.py:31-55) *)

(** The import is the first statement of the [try] block.  When it
    fails, the name [ttLib] is not bound, and evaluating the first
    handler, [except ttLib.TTLibFileIsCollectionError], raises
    [UnboundLocalError]; an exception raised there is not given to the
    handlers that follow, it leaves the function.  The same holds for
    an exception raised inside the body of a handler (the conversion
    of group 1, which cannot fail on a run of digits). *)
Definition get_font_count_in_collection (m : gmap string node)
  (font_file : string) : exn + Z :=
  if negb ttLib_importable then inl UnboundLocalError
  else
    match TTFont m font_file with
    | inr _ => inr 1
    | inl (TTLibFileIsCollectionError error_msg) =>
        match Re.search_range error_msg with
        | Some group1 =>
            match PyStr.int group1 with
            | Some n => inr (n + 1)
            | None => inl (OtherError "ValueError")
            end
        | None => inr 0
        end
    | inl _ => inr 0
    end.

(** ** compress_single_font (main.py:57-137) *)

(** Lines 79-90: the output file of a job. *)
Definition output_file_of (font_file output_dir : string)
  (font_index : option Z) : string :=
  let font_name := OsPath.stem font_file in
  let font_ext := PyStr.lower (OsPath.suffix font_file) in
  match font_index with
  | Some i =>
      OsPath.join output_dir
        (font_name +:+ "-" +:+ PyStr.str i +:+ "-subset.ttf")
  | None =>
      if String.eqb font_ext ".ttc" then
        OsPath.join output_dir (font_name +:+ "-subset.ttf")
      else
        OsPath.join output_dir (font_name +:+ "-subset" +:+ font_ext)
  end.

(** Lines 94-103: the argument vector. *)
Definition command_of (font_file text_file output_file : string)
  (font_index : option Z) : list string :=
  ["fonttools"; "subset"; font_file;
   "--text-file=" +:+ text_file;
   "--output-file=" +:+ output_file]
  ++ match font_index with
     | Some i => ["--font-number=" +:+ PyStr.str i]
     | None => []
     end.

(** Lines 93-130: the body of the [try] statement. *)
Definition try_body (font_file text_file output_file : string)
  (font_index : option Z) : M bool :=
  let cmd := command_of font_file text_file output_file font_index in
  let! result := run cmd in
  let '(returncode, stderr) := result in
  if returncode =? 0 then
    let! _ := say (MsgSuccess (OsPath.basename output_file)) in
    let! original_size := os_path_getsize font_file in
    let! compressed_size := os_path_getsize output_file in
    let! _ := (if (original_size =? 0)%N then raise ZeroDivisionError
             else ret tt) in
    let! _ := say (MsgSizes original_size compressed_size) in
    ret true
  else
    let! _ := say (MsgFailed stderr) in
    ret false.

(** The function without its ghost log. *)
Definition compress_single_font_body (font_file text_file output_dir : string)
  (font_index : option Z) (w : World) : bool * World :=
  if negb (bool_decide (is_Some (fs w !! font_file))) then
    (false, print (MsgFontMissing font_file) w)
  else if negb (bool_decide (is_Some (fs w !! text_file))) then
    (false, print (MsgTextMissing text_file) w)
  else
    let output_file := output_file_of font_file output_dir font_index in
    match try_body font_file text_file output_file font_index w with
    | (inr b, w') => (b, w')
    | (inl FileNotFoundError, w') => (false, print MsgToolNotFound w')
    | (inl e, w') => (false, print (MsgError e) w')
    end.

Definition compress_single_font (font_file text_file output_dir : string)
  (font_index : option Z) (w : World) : bool * World :=
  let '(ok, w') :=
    compress_single_font_body font_file text_file output_dir font_index w in
  (ok, log_job (Job font_file font_index ok) w').

(** ** batch_compress_fonts (main.py:139-227) *)

(** The three counters of the loop. *)
Record Tally : Type := mkTally {
  successful_count : Z;
  failed_count : Z;
  total_fonts_processed : Z
}.

Definition tally0 : Tally := mkTally 0 0 0.

(** [if ok: successful_count += 1 else: failed_count += 1] followed
    by [total_fonts_processed += 1]. *)
Definition count (ok : bool) (t : Tally) : Tally :=
  let t' :=
    if ok then
      mkTally (successful_count t + 1) (failed_count t)
        (total_fonts_processed t)
    else
      mkTally (successful_count t) (failed_count t + 1)
        (total_fonts_processed t) in
  mkTally (successful_count t') (failed_count t')
    (total_fonts_processed t' + 1).

(** One job: lines 194-198, 201-205 and 208-212. *)
Definition run_job (font_file text_file output_dir : string)
  (font_index : option Z) (s : Tally * World) : Tally * World :=
  let '(t, w) := s in
  let '(ok, w') :=
    compress_single_font font_file text_file output_dir font_index w in
  (count ok t, w').

(** A loop state reached without exception. *)
Definition returned (s : Tally * World) : (exn + Tally) * World :=
  (inr (fst s), snd s).

(** The body of the loop over the font files (lines 185-212).  The
    call of the inspector is not inside a [try]: what it raises leaves
    the loop and [batch_compress_fonts], and the counters are lost. *)
Definition process_font_file (text_file output_dir font_file : string)
  (s : Tally * World) : (exn + Tally) * World :=
  let font_ext := PyStr.lower (OsPath.suffix font_file) in
  if String.eqb font_ext ".ttc" then
    match get_font_count_in_collection (fs (snd s)) font_file with
    | inl e => (inl e, snd s)
    | inr font_count =>
        if 1 <? font_count then
          returned
            (fold_left
               (fun s font_index =>
                  run_job font_file text_file output_dir (Some font_index) s)
               (range font_count) s)
        else
          returned (run_job font_file text_file output_dir None s)
    end
  else
    returned (run_job font_file text_file output_dir None s).

Definition source_dir : string := "sourceFont".
Definition output_dir : string := "targetFont".
Definition text_file : string := "txt.txt".

(** The loop over the font files (lines 181-212). *)
Fixpoint batch_loop (font_files : list string) (s : Tally * World)
  : (exn + Tally) * World :=
  match font_files with
  | [] => returned s
  | font_file :: font_files' =>
      match process_font_file text_file output_dir font_file s with
      | (inr t, w) => batch_loop font_files' (t, w)
      | (inl e, w) => (inl e, w)
      end
  end.

Definition batch_compress_fonts : M bool :=
  let! src := os_path_exists source_dir in
  if negb src then
    let! _ := say (MsgNoSourceDir source_dir) in ret false
  else
    let! txt := os_path_exists text_file in
    if negb txt then
      let! _ := say (MsgNoTextFile text_file) in ret false
    else
      let! _ := os_makedirs output_dir in
      fun w =>
        let font_files := get_font_files (fs w) source_dir in
        match font_files with
        | [] => (inr false, print (MsgNoFonts source_dir) w)
        | _ :: _ =>
            match batch_loop font_files (tally0, w) with
            | (inr t, w') =>
                (inr (0 <? successful_count t),
                 print (MsgSummary (Z.of_nat (length font_files))
                          (total_fonts_processed t) (successful_count t)
                          (failed_count t)) w')
            | (inl e, w') => (inl e, w')
            end
        end.

(** ** Ghost definitions used to state the properties *)

(** The counters after the jobs [js], starting from [t]. *)
Definition tally_of (js : list job) (t : Tally) : Tally :=
  fold_left (fun t j => count (job_ok j) t) js t.

Definition successes (js : list job) : Z :=
  Z.of_nat (length (List.filter (fun j => job_ok j) js)).
Definition failures (js : list job) : Z :=
  Z.of_nat (length (List.filter (fun j => negb (job_ok j)) js)).

(** The states of the loop between two jobs: the initial state, and
    every state that follows such a state by one job. *)
Inductive reach (w0 : World) : Tally * World -> Prop :=
| reach_init : reach w0 (tally0, w0)
| reach_job s font_file text_file output_dir font_index :
    reach w0 s ->
    reach w0 (run_job font_file text_file output_dir font_index s).

(** The external tool is not installed. *)
Definition tool_missing : Prop :=
  forall m cmd, subprocess_run m cmd = (inl FileNotFoundError, m).

(** The directory entries a case-insensitive allowlist would
    select. *)
Definition allowed_suffixes : list string :=
  [".ttf"; ".otf"; ".woff"; ".woff2"; ".ttc"].

Definition has_allowed_extension (name : string) : bool :=
  bool_decide (PyStr.lower (OsPath.suffix name) ∈ allowed_suffixes).

(** The directory entries the two patterns per extension select: a
    name that does not start with a dot and ends in an allowed
    suffix written in lower case or in upper case. *)
Definition selected (name : string) : Prop :=
  Glob._ishidden name = false /\
  exists ext pre,
    In ext allowed_suffixes /\
    (name = pre +:+ ext \/ name = pre +:+ PyStr.upper ext).

End Program.

(* ===================================================================== *)
(** * Concrete environments *)
(* ===================================================================== *)

Module Scenario.

(** What fontTools answers when it opens a collection without a font
    number. *)
Definition collection_msg (last : string) : string :=
  "specify a font number between 0 and " +:+ last +:+ " (inclusive)".

(** The parser: [Collection.ttc] holds two fonts, [Broken.ttc] does
    not parse at all, everything else is a single font. *)
Definition parse (m : gmap string node) (p : string) : exn + unit :=
  if String.eqb p "sourceFont/Collection.ttc" then
    inl (TTLibFileIsCollectionError (collection_msg "1"))
  else if String.eqb p "sourceFont/Broken.ttc" then
    inl (OtherError "Not a TrueType or OpenType font (bad sfntVersion)")
  else inr tt.

(** The file named by the [--output-file=] argument. *)
Definition output_arg (cmd : list string) : option string :=
  match nth_error cmd 4 with
  | Some a => PyStr.strip_prefix "--output-file=" a
  | None => None
  end.

(** A tool that writes its output file and exits with status 0. *)
Definition tool_ok (m : gmap string node) (cmd : list string)
  : (exn + Z * string) * gmap string node :=
  match output_arg cmd with
  | Some out => (inr (0, ""), <[out := File 1]> m)
  | None => (inr (2, "usage"), m)
  end.

(** A tool that exits with status 0 and leaves no output file. *)
Definition tool_silent (m : gmap string node) (cmd : list string)
  : (exn + Z * string) * gmap string node :=
  (inr (0, ""), m).

(** No tool: starting the process raises [FileNotFoundError]. *)
Definition tool_absent (m : gmap string node) (cmd : list string)
  : (exn + Z * string) * gmap string node :=
  (inl FileNotFoundError, m).

(** A tool that runs and reports an error. *)
Definition tool_fails (m : gmap string node) (cmd : list string)
  : (exn + Z * string) * gmap string node :=
  (inr (1, "fonttools: error: no glyphs"), m).

(** A tool that cannot be executed. *)
Definition tool_denied (m : gmap string node) (cmd : list string)
  : (exn + Z * string) * gmap string node :=
  (inl (OtherError "[Errno 13] Permission denied: 'fonttools'"), m).

Definition installed : External := Build_External true parse tool_ok.
Definition failing : External := Build_External true parse tool_fails.
Definition denied : External := Build_External true parse tool_denied.
Definition silent : External := Build_External true parse tool_silent.
Definition missing : External := Build_External true parse tool_absent.

(** Neither the executable nor the library: fontTools is not
    installed. *)
Definition uninstalled : External := Build_External false parse tool_absent.

Definition world_of (m : gmap string node) : World := mkWorld m [] [] [].

(** A source directory with one font and one collection. *)
Definition disk : gmap string node :=
  <["sourceFont" := Dir 0 ["Serif.ttf"; "Collection.ttc"]]>
  (<["sourceFont/Serif.ttf" := File 2048]>
  (<["sourceFont/Collection.ttc" := File 4096]>
  (<["txt.txt" := File 10]> ∅))).

(** A source directory with two plain fonts. *)
Definition disk_two : gmap string node :=
  <["sourceFont" := Dir 0 ["a.ttf"; "b.otf"]]>
  (<["sourceFont/a.ttf" := File 2048]>
  (<["sourceFont/b.otf" := File 4096]>
  (<["txt.txt" := File 10]> ∅))).

(** A source directory whose only entry is a collection that does
    not parse. *)
Definition disk_broken : gmap string node :=
  <["sourceFont" := Dir 0 ["Broken.ttc"]]>
  (<["sourceFont/Broken.ttc" := File 4096]>
  (<["txt.txt" := File 10]> ∅)).

(** A source directory whose only entry has a mixed-case
    extension. *)
Definition disk_mixed : gmap string node :=
  <["sourceFont" := Dir 0 ["Font.Ttf"]]>
  (<["sourceFont/Font.Ttf" := File 2048]>
  (<["txt.txt" := File 10]> ∅)).

(** A source directory whose only entry has an upper-case
    extension. *)
Definition disk_upper : gmap string node :=
  <["sourceFont" := Dir 0 ["B.TTF"]]>
  (<["sourceFont/B.TTF" := File 2048]>
  (<["txt.txt" := File 10]> ∅)).

(** A source directory without fonts. *)
Definition disk_empty : gmap string node :=
  <["sourceFont" := Dir 0 ["README.md"]]>
  (<["sourceFont/README.md" := File 5]>
  (<["txt.txt" := File 10]> ∅)).

End Scenario.

Example str_examples :
  PyStr.str 0 = "0" /\ PyStr.str 12 = "12" /\ PyStr.int "007" = Some 7 /\
  PyStr.int "" = None /\ PyStr.upper "*.woff2" = "*.WOFF2" /\
  PyStr.lower ".TtC" = ".ttc".
Proof. repeat split; reflexivity. Qed.

Example path_examples :
  OsPath.stem "sourceFont/Noto.Sans.TTC" = "Noto.Sans" /\
  OsPath.suffix "sourceFont/Noto.Sans.TTC" = ".TTC" /\
  OsPath.suffix "sourceFont/.hidden" = "" /\
  OsPath.suffix "sourceFont/name." = "" /\
  OsPath.name "a/b/." = "b" /\
  OsPath.join "targetFont" "A-subset.ttf" = "targetFont/A-subset.ttf" /\
  OsPath.basename "targetFont/A-subset.ttf" = "A-subset.ttf".
Proof. repeat split; reflexivity. Qed.

(* ===================================================================== *)
(** * Facts about strings and paths *)
(* ===================================================================== *)

Lemma sapp_nil_l (s : string) : "" +:+ s = s.
Proof. reflexivity. Qed.

Lemma sapp_cons (a : ascii) (s t : string) :
  String a s +:+ t = String a (s +:+ t).
Proof. reflexivity. Qed.

Lemma sapp_nil_r (s : string) : s +:+ "" = s.
Proof. induction s as [|a s IH]; [reflexivity|]. by rewrite sapp_cons, IH. Qed.

Lemma sapp_assoc (s t u : string) : (s +:+ t) +:+ u = s +:+ t +:+ u.
Proof.
  induction s as [|a s IH]; [reflexivity|]. by rewrite !sapp_cons, IH.
Qed.

Lemma sapp_length (s t : string) :
  String.length (s +:+ t) = (String.length s + String.length t)%nat.
Proof.
  induction s as [|a s IH]; [reflexivity|].
  rewrite sapp_cons. simpl. by rewrite IH.
Qed.

Lemma sapp_inv_head (s t u : string) : s +:+ t = s +:+ u -> t = u.
Proof.
  induction s as [|a s IH]; [done|].
  rewrite !sapp_cons. intros [= E]. auto.
Qed.

Lemma sapp_inv_tail (s t u : string) : s +:+ u = t +:+ u -> s = t.
Proof.
  revert t. induction s as [|a s IH]; intros [|b t] E.
  - done.
  - apply (f_equal String.length) in E.
    rewrite sapp_nil_l, sapp_cons in E. simpl in E. rewrite sapp_length in E. lia.
  - apply (f_equal String.length) in E.
    rewrite sapp_nil_l, sapp_cons in E. simpl in E. rewrite sapp_length in E. lia.
  - rewrite !sapp_cons in E. injection E as -> E. f_equal. by apply IH.
Qed.

Lemma drop_app (s t : string) : PyStr.drop (String.length s) (s +:+ t) = t.
Proof. induction s as [|a s IH]; [by destruct t|]. by rewrite sapp_cons. Qed.

Lemma take_app (s t : string) : PyStr.take (String.length s) (s +:+ t) = s.
Proof.
  induction s as [|a s IH]; [by destruct t|].
  rewrite sapp_cons. simpl. by rewrite IH.
Qed.

Lemma smap_app (f : ascii -> ascii) (s t : string) :
  PyStr.smap f (s +:+ t) = PyStr.smap f s +:+ PyStr.smap f t.
Proof.
  induction s as [|a s IH]; [reflexivity|].
  rewrite sapp_cons. simpl. by rewrite IH, sapp_cons.
Qed.

Lemma startswith_app (p s : string) : PyStr.startswith p (p +:+ s) = true.
Proof.
  induction p as [|a p IH]; [reflexivity|].
  rewrite sapp_cons. simpl. by rewrite Ascii.eqb_refl, IH.
Qed.

Lemma strip_prefix_app (p s : string) : PyStr.strip_prefix p (p +:+ s) = Some s.
Proof.
  induction p as [|a p IH]; [reflexivity|].
  rewrite sapp_cons. simpl. by rewrite Ascii.eqb_refl.
Qed.

Lemma strip_prefix_Some (p s r : string) :
  PyStr.strip_prefix p s = Some r -> s = p +:+ r.
Proof.
  revert s. induction p as [|a p IH]; intros s E.
  - simpl in E. by injection E as ->.
  - destruct s as [|b s]; [done|]. simpl in E.
    destruct (Ascii.eqb_spec a b) as [->|]; [|done].
    rewrite sapp_cons. f_equal. auto.
Qed.

(** The last dot of [base.ext], when [ext] has no dot. *)
Lemma rfind_dot_app (base ext : string) :
  PyStr.rfind "." ext = None ->
  PyStr.rfind "." (base +:+ "." +:+ ext) = Some (String.length base).
Proof.
  intros E. induction base as [|a base IH].
  - rewrite sapp_nil_l, sapp_cons, sapp_nil_l. simpl. by rewrite E.
  - rewrite sapp_cons. simpl. by rewrite IH.
Qed.

Lemma suffix_pos_app (base ext : string) :
  base <> "" -> ext <> "" -> PyStr.rfind "." ext = None ->
  OsPath.suffix_pos (base +:+ "." +:+ ext) = Some (String.length base).
Proof.
  intros Hb He E. unfold OsPath.suffix_pos, PyStr.len.
  rewrite rfind_dot_app by done.
  rewrite !sapp_length.
  destruct base as [|a base]; [done|]. destruct ext as [|b ext]; [done|].
  simpl String.length.
  replace (0 <? S (String.length base))%nat with true
    by (symmetry; apply Nat.ltb_lt; lia).
  replace (S (String.length base) <?
           S (String.length base) + (1 + S (String.length ext)) - 1)%nat
    with true by (symmetry; apply Nat.ltb_lt; lia).
  done.
Qed.

(** The stem and the suffix of a path whose final component is
    [base.ext]. *)
Lemma stem_suffix_of_name (p base ext : string) :
  OsPath.name p = base +:+ "." +:+ ext ->
  base <> "" -> ext <> "" -> PyStr.rfind "." ext = None ->
  OsPath.stem p = base /\ OsPath.suffix p = "." +:+ ext.
Proof.
  intros En Hb He E. unfold OsPath.stem, OsPath.suffix.
  rewrite En, suffix_pos_app by done.
  by rewrite take_app, drop_app.
Qed.

Lemma lower_dot (ext : string) :
  PyStr.lower ("." +:+ ext) = "." +:+ PyStr.lower ext.
Proof. reflexivity. Qed.

(** [str] is one-to-one. *)
Lemma to_int_not_nil (z : Z) : Z.to_int z <> Decimal.Pos Decimal.Nil /\ Z.to_int z <> Decimal.Neg Decimal.Nil.
Proof.
  destruct z as [|p|p]; simpl; split; try discriminate;
    intros [= E]; by apply (Unsigned.to_uint_nonnil p).
Qed.

Lemma str_inj (a b : Z) : PyStr.str a = PyStr.str b -> a = b.
Proof.
  unfold PyStr.str. intros E.
  apply (f_equal NilZero.int_of_string) in E.
  destruct (to_int_not_nil a), (to_int_not_nil b).
  rewrite !NilZero.isi in E by done.
  injection E as E. apply (f_equal Z.of_int) in E.
  by rewrite !DecimalZ.of_to in E.
Qed.

(** Whether a name that starts with [p] is absolute depends on [p]
    alone, when [p] is followed by a dash. *)
Lemma startswith_slash_dash (p r r' : string) :
  PyStr.startswith "/" (p +:+ "-" +:+ r) =
  PyStr.startswith "/" (p +:+ "-" +:+ r').
Proof. destruct p as [|a p]; reflexivity. Qed.

Lemma join_inj_dash (d p r r' : string) :
  OsPath.join d (p +:+ "-" +:+ r) = OsPath.join d (p +:+ "-" +:+ r') ->
  r = r'.
Proof.
  unfold OsPath.join. rewrite (startswith_slash_dash p r r').
  destruct (PyStr.startswith "/" (p +:+ "-" +:+ r')).
  - intros E. by apply sapp_inv_head, (sapp_inv_head "-") in E.
  - destruct d as [|a d].
    + intros E. by apply sapp_inv_head, (sapp_inv_head "-") in E.
    + destruct (PyStr.startswith "/" (String.rev (String a d))); intros E.
      * by apply sapp_inv_head, sapp_inv_head, (sapp_inv_head "-") in E.
      * by apply sapp_inv_head, (sapp_inv_head "/"), sapp_inv_head,
          (sapp_inv_head "-") in E.
Qed.

(* ===================================================================== *)
(** * The subset invoker *)
(* ===================================================================== *)

Section Invoker.

Context `{External}.

Implicit Types (font_file text_file output_dir output_file : string).
Implicit Types (font_index : option Z) (w : World).

(** The [try] body starts the tool exactly once. *)
Lemma try_body_calls font_file text_file output_file font_index w :
  calls (snd (try_body font_file text_file output_file font_index w)) =
  calls w ++ [command_of font_file text_file output_file font_index].
Proof.
  unfold try_body, bind, run, say, os_path_getsize, raise, ret.
  destruct (subprocess_run _ _) as [[e|[returncode stderr]] m']; simpl; [done|].
  destruct (returncode =? 0); simpl; [|done].
  destruct (m' !! font_file) as [src|]; simpl; [|done].
  destruct (m' !! output_file) as [out|]; simpl; [|done].
  by destruct (size_of src =? 0)%N.
Qed.

(** What the [try] body answers when the tool exits with status 0. *)
Lemma try_body_exit_zero font_file text_file output_file font_index w stderr m' :
  subprocess_run (fs w)
    (command_of font_file text_file output_file font_index)
    = (inr (0, stderr), m') ->
  fst (try_body font_file text_file output_file font_index w) =
  match m' !! font_file, m' !! output_file with
  | Some src, Some _ =>
      if (size_of src =? 0)%N then inl ZeroDivisionError else inr true
  | Some _, None | None, _ => inl FileNotFoundError
  end.
Proof.
  intros E.
  unfold try_body, bind, run, say, os_path_getsize, raise, ret.
  rewrite E. simpl.
  destruct (m' !! font_file) as [src|]; simpl; [|done].
  destruct (m' !! output_file) as [out|]; simpl; [|done].
  by destruct (size_of src =? 0)%N.
Qed.

(** What the [try] body does when the tool cannot be started. *)
Lemma try_body_missing font_file text_file output_file font_index w :
  tool_missing ->
  try_body font_file text_file output_file font_index w =
  (inl FileNotFoundError,
   log_call (command_of font_file text_file output_file font_index) w).
Proof.
  intros Hm. unfold try_body, bind, run. rewrite Hm. simpl.
  by destruct w.
Qed.

Lemma body_when_present font_file text_file output_dir font_index w :
  is_Some (fs w !! font_file) -> is_Some (fs w !! text_file) ->
  compress_single_font_body font_file text_file output_dir font_index w =
  match try_body font_file text_file
          (output_file_of font_file output_dir font_index) font_index w with
  | (inr b, w') => (b, w')
  | (inl FileNotFoundError, w') => (false, print MsgToolNotFound w')
  | (inl e, w') => (false, print (MsgError e) w')
  end.
Proof.
  intros Hf Ht. unfold compress_single_font_body.
  by rewrite !bool_decide_eq_true_2.
Qed.

Lemma compress_single_font_jobs font_file text_file output_dir font_index w :
  let r := compress_single_font font_file text_file output_dir font_index w in
  jobs (snd r) = jobs w ++ [Job font_file font_index (fst r)].
Proof.
  unfold compress_single_font, compress_single_font_body.
  repeat case_match; simplify_eq/=; try done.
  all: match goal with
       | E : try_body _ _ _ _ _ = _ |- _ =>
           revert E; unfold try_body, bind, run, say, os_path_getsize,
             raise, ret; intros E
       end.
  all: repeat case_match; by simplify_eq/=.
Qed.

(** A job prints job lines only, never a summary. *)
Lemma compress_single_font_console font_file text_file output_dir font_index w :
  exists ls,
    console (snd (compress_single_font font_file text_file output_dir
                    font_index w)) = console w ++ ls /\
    Forall (fun l => forall a b c d, l <> MsgSummary a b c d) ls.
Proof.
  unfold compress_single_font, compress_single_font_body.
  destruct (negb (bool_decide (is_Some (fs w !! font_file)))).
  { eexists [_]. split; [done|]. by repeat constructor. }
  destruct (negb (bool_decide (is_Some (fs w !! text_file)))).
  { eexists [_]. split; [done|]. by repeat constructor. }
  unfold try_body, bind, run, say, os_path_getsize, raise, ret.
  destruct (subprocess_run _ _) as [[e|[returncode stderr]] m']; simpl.
  { destruct e; eexists [_]; (split; [done|]); by repeat constructor. }
  destruct (returncode =? 0); simpl;
    [|eexists [_]; (split; [done|]); by repeat constructor].
  destruct (m' !! font_file) as [src|]; simpl;
    [|eexists [_; _]; rewrite <- app_assoc; (split; [done|]);
      by repeat constructor].
  destruct (m' !! output_file_of font_file output_dir font_index) as [out|];
    simpl;
    [|eexists [_; _]; rewrite <- app_assoc; (split; [done|]);
      by repeat constructor].
  destruct (size_of src =? 0)%N; simpl;
    eexists [_; _]; rewrite <- app_assoc; (split; [done|]);
    by repeat constructor.
Qed.

End Invoker.

Section InvokerClaims.

Context `{External}.

(** C8 (amended). For every job whose input is named [base.ext], the
    invoker writes to [base-subset.] followed by the extension
    converted to lower case when no collection index is supplied and
    the input is not a [.ttc] container (in any letter case), to
    [base-subset.ttf] when the input is a [.ttc] container processed
    as one font, and to [base-index-subset.ttf] when a collection
    index is supplied; this is the file named in the
    [--output-file=] argument of the one command the job starts.
    Collection inputs therefore always end in [.ttf]. *)
Theorem C8_output_file_naming
  (font_file text_file output_dir base ext : string)
  (font_index : option Z) (w : World) :
  OsPath.name font_file = base +:+ "." +:+ ext ->
  base <> "" -> ext <> "" -> PyStr.rfind "." ext = None ->
  is_Some (fs w !! font_file) -> is_Some (fs w !! text_file) ->
  let output_name :=
    match font_index with
    | Some i => base +:+ "-" +:+ PyStr.str i +:+ "-subset.ttf"
    | None =>
        if String.eqb (PyStr.lower ext) "ttc" then base +:+ "-subset.ttf"
        else base +:+ "-subset." +:+ PyStr.lower ext
    end in
  output_file_of font_file output_dir font_index
    = OsPath.join output_dir output_name /\
  calls (snd (compress_single_font font_file text_file output_dir
                font_index w))
    = calls w ++
      [command_of font_file text_file
         (OsPath.join output_dir output_name) font_index].
Proof.
  intros En Hb He Hdot Hf Ht output_name.
  destruct (stem_suffix_of_name _ _ _ En Hb He Hdot) as [Es Ex].
  assert (output_file_of font_file output_dir font_index
          = OsPath.join output_dir output_name) as Eout.
  { unfold output_file_of, output_name. rewrite Es, Ex, lower_dot.
    destruct font_index as [i|]; [done|].
    change (("." +:+ PyStr.lower ext =? ".ttc")%string)
      with ((PyStr.lower ext =? "ttc")%string).
    by destruct (PyStr.lower ext =? "ttc")%string. }
  split; [done|].
  unfold compress_single_font.
  rewrite body_when_present by done. rewrite Eout.
  pose proof (try_body_calls font_file text_file
                (OsPath.join output_dir output_name) font_index w) as Ec.
  destruct (try_body _ _ _ _ _) as [[e|b] w']; simpl in *; [|done].
  by destruct e.
Qed.

(** C5 (amended). When the external tool exits with status 0, the job
    is classified Success exactly when the two size reads that follow
    succeed and the source is not empty; a local error while the
    sizes are read (a missing source or output file, a division by a
    zero source size) is caught by the handlers of the invoker and
    turns the job into a Failure. *)
Theorem C5_exit_zero_classification
  (font_file text_file output_dir stderr : string)
  (font_index : option Z) (w : World) (m' : gmap string node) :
  is_Some (fs w !! font_file) -> is_Some (fs w !! text_file) ->
  subprocess_run (fs w)
    (command_of font_file text_file
       (output_file_of font_file output_dir font_index) font_index)
    = (inr (0, stderr), m') ->
  fst (compress_single_font font_file text_file output_dir font_index w)
  = match m' !! font_file,
          m' !! output_file_of font_file output_dir font_index with
    | Some src, Some _ => negb (size_of src =? 0)%N
    | _, _ => false
    end.
Proof.
  intros Hf Ht E. unfold compress_single_font.
  rewrite body_when_present by done.
  pose proof (try_body_exit_zero _ _ _ _ _ _ _ E) as Et.
  destruct (try_body _ _ _ _ _) as [r w']; simpl in *. subst r.
  destruct (m' !! font_file) as [src|]; [|done].
  destruct (m' !! output_file_of _ _ _) as [out|]; [|done].
  by destruct (size_of src =? 0)%N.
Qed.

End InvokerClaims.

Lemma C8_output_file_naming_witness :
  @output_file_of "sourceFont/Collection.TTC" "targetFont" (Some 1)
    = "targetFont/Collection-1-subset.ttf" /\
  @output_file_of "sourceFont/Collection.TTC" "targetFont" None
    = "targetFont/Collection-subset.ttf" /\
  @output_file_of "sourceFont/B.TTF" "targetFont" None
    = "targetFont/B-subset.ttf".
Proof.
  split; [|split].
  - apply (@C8_output_file_naming Scenario.installed
             "sourceFont/Collection.TTC" "txt.txt" "targetFont"
             "Collection" "TTC" (Some 1)
             (Scenario.world_of
                (<["sourceFont/Collection.TTC" := File 7]> Scenario.disk)));
      [reflexivity | discriminate | discriminate | reflexivity
      | vm_compute; eauto | vm_compute; eauto].
  - apply (@C8_output_file_naming Scenario.installed
             "sourceFont/Collection.TTC" "txt.txt" "targetFont"
             "Collection" "TTC" None
             (Scenario.world_of
                (<["sourceFont/Collection.TTC" := File 7]> Scenario.disk)));
      [reflexivity | discriminate | discriminate | reflexivity
      | vm_compute; eauto | vm_compute; eauto].
  - apply (@C8_output_file_naming Scenario.installed
             "sourceFont/B.TTF" "txt.txt" "targetFont" "B" "TTF" None
             (Scenario.world_of Scenario.disk_upper));
      [reflexivity | discriminate | discriminate | reflexivity
      | vm_compute; eauto | vm_compute; eauto].
Defined.

(** C8 as stated fails: [B.TTF] is discovered and is not a collection,
    yet its output is not [B-subset.TTF]: the job writes
    [B-subset.ttf]. *)
Lemma C8_extension_is_lower_cased :
  get_font_files Scenario.disk_upper "sourceFont" = ["sourceFont/B.TTF"] /\
  OsPath.stem "sourceFont/B.TTF" = "B" /\
  OsPath.suffix "sourceFont/B.TTF" = ".TTF" /\
  @output_file_of "sourceFont/B.TTF" "targetFont" None
    = "targetFont/B-subset.ttf" /\
  @output_file_of "sourceFont/B.TTF" "targetFont" None
    <> OsPath.join "targetFont" ("B" +:+ "-subset" +:+ ".TTF") /\
  calls (snd (@batch_compress_fonts Scenario.installed
                (Scenario.world_of Scenario.disk_upper)))
    = [["fonttools"; "subset"; "sourceFont/B.TTF"; "--text-file=txt.txt";
        "--output-file=targetFont/B-subset.ttf"]].
Proof. repeat split; try reflexivity. discriminate. Qed.

Lemma C5_exit_zero_classification_witness :
  fst (@compress_single_font Scenario.installed
         "sourceFont/Serif.ttf" "txt.txt" "targetFont" None
         (Scenario.world_of Scenario.disk)) = true.
Proof.
  rewrite (@C5_exit_zero_classification Scenario.installed
             "sourceFont/Serif.ttf" "txt.txt" "targetFont" "" None
             (Scenario.world_of Scenario.disk)
             (<["targetFont/Serif-subset.ttf" := File 1]> Scenario.disk));
    [reflexivity | vm_compute; eauto | vm_compute; eauto | reflexivity].
Defined.

(** C5 as stated fails: the tool exits with status 0 and leaves no
    output file; reading the size of the output raises, and the job is
    a Failure. *)
Lemma C5_size_error_fails_job :
  @subprocess_run Scenario.silent Scenario.disk_two
    (@command_of "sourceFont/a.ttf" "txt.txt" "targetFont/a-subset.ttf" None)
    = (inr (0, ""), Scenario.disk_two) /\
  @compress_single_font Scenario.silent
    "sourceFont/a.ttf" "txt.txt" "targetFont" None
    (Scenario.world_of Scenario.disk_two)
  = (false,
     mkWorld Scenario.disk_two [MsgSuccess "a-subset.ttf"; MsgToolNotFound]
       [["fonttools"; "subset"; "sourceFont/a.ttf"; "--text-file=txt.txt";
         "--output-file=targetFont/a-subset.ttf"]]
       [Job "sourceFont/a.ttf" None false]).
Proof. split; reflexivity. Qed.

(* ===================================================================== *)
(** * The collection inspector *)
(* ===================================================================== *)

Section Inspector.

Context `{External}.

Lemma search_range_eq (s : string) :
  Re.search_range s =
  match Re.match_range s with
  | Some g => Some g
  | None =>
      match s with
      | EmptyString => None
      | String _ s' => Re.search_range s'
      end
  end.
Proof. by destruct s. Qed.

(** The digits of a decimal numeral followed by something else. *)
Lemma digits_uint (d : Decimal.uint) (post : string) :
  PyStr.starts_with_digit post = false ->
  Re.digits (NilEmpty.string_of_uint d +:+ post) = NilEmpty.string_of_uint d.
Proof.
  intros Hp. induction d; simpl; rewrite ?sapp_cons; simpl; rewrite ?IHd;
    try done.
  rewrite sapp_nil_l. destruct post as [|c post]; [done|].
  simpl in *. by rewrite Hp.
Qed.

Lemma str_nonneg (N : Z) :
  0 <= N ->
  exists d, d <> Decimal.Nil /\
            PyStr.str N = NilEmpty.string_of_uint d /\ Z.of_uint d = N.
Proof.
  intros HN. pose proof (DecimalZ.of_to N) as Hof.
  unfold PyStr.str. destruct N as [|p|p]; [| |lia].
  - by exists (Decimal.D0 Decimal.Nil).
  - exists (Pos.to_uint p). pose proof (Unsigned.to_uint_nonnil p) as Hn.
    split; [done|]. split; [|done].
    simpl. by destruct (Pos.to_uint p).
Qed.

Lemma int_str (N : Z) : 0 <= N -> PyStr.int (PyStr.str N) = Some N.
Proof.
  intros HN. destruct (str_nonneg N HN) as (d & Hd & -> & <-).
  unfold PyStr.int.
  replace (NilEmpty.string_of_uint d) with (NilZero.string_of_uint d)
    by (by destruct d).
  by rewrite NilZero.usu.
Qed.

Lemma match_range_here (N : Z) (post : string) :
  0 <= N -> PyStr.starts_with_digit post = false ->
  Re.match_range ("between 0 and " +:+ PyStr.str N +:+ post)
    = Some (PyStr.str N).
Proof.
  intros HN Hp. unfold Re.match_range. rewrite strip_prefix_app.
  destruct (str_nonneg N HN) as (d & Hd & -> & _).
  rewrite digits_uint by done. by destruct d.
Qed.

(** A match at the first character is an occurrence of the literal
    text followed by a digit. *)
Lemma match_range_inv (s g : string) :
  Re.match_range s = Some g ->
  exists d b, s = "between 0 and " +:+ String d b /\ PyStr.is_digit d = true.
Proof.
  unfold Re.match_range.
  destruct (PyStr.strip_prefix _ s) as [rest|] eqn:E; [|done].
  apply strip_prefix_Some in E. subst s.
  destruct rest as [|d b]; [done|]. simpl.
  destruct (PyStr.is_digit d) eqn:Hd; [|done]. intros _. by exists d, b.
Qed.

Lemma search_range_none (msg : string) :
  (forall a d b, msg = a +:+ "between 0 and " +:+ String d b ->
                 PyStr.is_digit d = false) ->
  Re.search_range msg = None.
Proof.
  induction msg as [|c msg IH]; intros Hno; rewrite search_range_eq.
  - destruct (Re.match_range "") as [g|] eqn:E; [|done].
    apply match_range_inv in E as (d & b & E & Hd).
    by rewrite (Hno "" d b) in Hd.
  - destruct (Re.match_range (String c msg)) as [g|] eqn:E.
    + apply match_range_inv in E as (d & b & E & Hd).
      by rewrite (Hno "" d b) in Hd.
    + apply IH. intros a d b ->. by apply (Hno (String c a) d b).
Qed.

Lemma search_range_first (pre post : string) (N : Z) :
  0 <= N -> PyStr.starts_with_digit post = false ->
  (forall a d b,
     pre +:+ "between 0 and " +:+ PyStr.str N +:+ post
       = a +:+ "between 0 and " +:+ String d b ->
     PyStr.is_digit d = true ->
     (String.length pre <= String.length a)%nat) ->
  Re.search_range (pre +:+ "between 0 and " +:+ PyStr.str N +:+ post)
    = Some (PyStr.str N).
Proof.
  intros HN Hp. induction pre as [|c pre IH]; intros Hfirst;
    rewrite search_range_eq.
  - rewrite sapp_nil_l. by rewrite match_range_here.
  - destruct (Re.match_range _) as [g|] eqn:E.
    + apply match_range_inv in E as (d & b & E & Hd).
      specialize (Hfirst "" d b E Hd). simpl in Hfirst. lia.
    + rewrite (sapp_cons c pre). apply IH. intros a d b E' Hd.
      assert (String.length (String c pre) <= String.length (String c a))%nat
        as Hle; [|simpl in Hle; lia].
      apply (Hfirst (String c a) d b); [|done].
      by rewrite (sapp_cons c pre), (sapp_cons c a), E'.
Qed.

(** Group 1 of a match always converts: the [None] branch of the
    conversion in [get_font_count_in_collection] is never taken. *)
Lemma digits_parse (s : string) :
  exists d, NilEmpty.uint_of_string (Re.digits s) = Some d.
Proof.
  induction s as [|a s [d IH]]; [by exists Decimal.Nil|].
  simpl. destruct (PyStr.is_digit a) eqn:Ha; [|by exists Decimal.Nil].
  simpl. rewrite IH.
  destruct a as [[|] [|] [|] [|] [|] [|] [|] [|]]; try discriminate Ha;
    simpl; eauto.
Qed.

Lemma search_range_parses (s g : string) :
  Re.search_range s = Some g -> exists n, PyStr.int g = Some n /\ 0 <= n.
Proof.
  induction s as [|c s IH]; rewrite search_range_eq.
  - by vm_compute.
  - destruct (Re.match_range (String c s)) as [g'|] eqn:E; [|done].
    intros [= ->]. revert E. unfold Re.match_range.
    destruct (PyStr.strip_prefix _ _) as [rest|]; [|done].
    destruct (digits_parse rest) as [d Hd].
    destruct (Re.digits rest) as [|a ds] eqn:Er; [done|].
    intros [= <-]. unfold PyStr.int, NilZero.uint_of_string. rewrite Hd.
    eexists. split; [done|]. apply N2Z.is_nonneg.
Qed.

(** The inspector raises only when the import failed. *)
Lemma inspector_raises (m : gmap string node) (font_file : string) (e : exn) :
  get_font_count_in_collection m font_file = inl e ->
  e = UnboundLocalError /\ ttLib_importable = false.
Proof.
  unfold get_font_count_in_collection.
  destruct ttLib_importable; simpl; [|by intros [= <-]].
  destruct (TTFont m font_file) as [e'|u]; [|done].
  destruct e' as [| | | |msg|msg]; try done.
  destruct (Re.search_range msg) as [g|] eqn:Es; [|done].
  by destruct (search_range_parses _ _ Es) as (n & -> & _).
Qed.

Lemma inspector_returns (m : gmap string node) (font_file : string) :
  ttLib_importable = true ->
  exists k, get_font_count_in_collection m font_file = inr k.
Proof.
  intros Hi.
  destruct (get_font_count_in_collection m font_file) as [e|k] eqn:E;
    [|by exists k].
  apply inspector_raises in E as [_ E]. congruence.
Qed.

(** C3. Once the fontTools library is imported, the collection
    inspector returns 1 when the file parses as a single font; [N + 1]
    when parsing fails with a collection error whose message has the
    index range [between 0 and N] as its first such range; and 0 for a
    collection error without such a range and for every other parse
    failure. *)
Theorem C3_collection_inspector (m : gmap string node) (font_file : string) :
  ttLib_importable = true ->
  (forall u, TTFont m font_file = inr u ->
     get_font_count_in_collection m font_file = inr 1) /\
  (forall pre N post,
     TTFont m font_file
       = inl (TTLibFileIsCollectionError
                (pre +:+ "between 0 and " +:+ PyStr.str N +:+ post)) ->
     0 <= N ->
     PyStr.starts_with_digit post = false ->
     (forall a d b,
        pre +:+ "between 0 and " +:+ PyStr.str N +:+ post
          = a +:+ "between 0 and " +:+ String d b ->
        PyStr.is_digit d = true ->
        (String.length pre <= String.length a)%nat) ->
     get_font_count_in_collection m font_file = inr (N + 1)) /\
  (forall msg,
     TTFont m font_file = inl (TTLibFileIsCollectionError msg) ->
     (forall a d b, msg = a +:+ "between 0 and " +:+ String d b ->
                    PyStr.is_digit d = false) ->
     get_font_count_in_collection m font_file = inr 0) /\
  (forall e,
     TTFont m font_file = inl e ->
     (forall msg, e <> TTLibFileIsCollectionError msg) ->
     get_font_count_in_collection m font_file = inr 0).
Proof.
  intros Hi. unfold get_font_count_in_collection. rewrite Hi. simpl.
  repeat split.
  - by intros u ->.
  - intros pre N post -> HN Hp Hfirst.
    by rewrite search_range_first, int_str.
  - intros msg -> Hno. by rewrite search_range_none.
  - intros e -> He. destruct e; try done. by destruct (He msg).
Qed.

End Inspector.

Lemma C3_collection_inspector_witness :
  @get_font_count_in_collection Scenario.installed Scenario.disk
    "sourceFont/Collection.ttc" = inr (1 + 1) /\
  @get_font_count_in_collection Scenario.installed Scenario.disk_broken
    "sourceFont/Broken.ttc" = inr 0 /\
  @get_font_count_in_collection Scenario.installed Scenario.disk
    "sourceFont/Serif.ttf" = inr 1.
Proof.
  split; [|split].
  - destruct (@C3_collection_inspector Scenario.installed Scenario.disk
                "sourceFont/Collection.ttc" eq_refl) as (_ & Hn & _).
    apply (Hn "specify a font number " 1 " (inclusive)");
      [reflexivity | lia | reflexivity |].
    intros a d b E Hd.
    destruct (Nat.le_gt_cases (String.length "specify a font number ")
                (String.length a)) as [Hle|Hgt]; [exact Hle|].
    exfalso. clear Hd. simpl in Hgt.
    do 22 (let x := fresh "x" in
           destruct a as [|x a];
           [vm_compute in E; discriminate E
           |rewrite (sapp_cons x a) in E; injection E as _ E;
            simpl in Hgt]).
    lia.
  - destruct (@C3_collection_inspector Scenario.installed Scenario.disk_broken
                "sourceFont/Broken.ttc" eq_refl) as (_ & _ & _ & He).
    apply (He (OtherError "Not a TrueType or OpenType font (bad sfntVersion)"));
      [reflexivity | discriminate].
  - destruct (@C3_collection_inspector Scenario.installed Scenario.disk
                "sourceFont/Serif.ttf" eq_refl) as (Hu & _).
    apply (Hu tt). reflexivity.
Defined.

(* ===================================================================== *)
(** * The batch orchestrator *)
(* ===================================================================== *)

Section Orchestrator.

Context `{External}.

Implicit Types (t : Tally) (w : World) (s : Tally * World).
Implicit Types (js : list job) (font_files : list string).

Lemma tally_of_app js js' t :
  tally_of (js ++ js') t = tally_of js' (tally_of js t).
Proof. apply fold_left_app. Qed.

Lemma tally_of_counts js t :
  successful_count (tally_of js t) = successful_count t + successes js /\
  failed_count (tally_of js t) = failed_count t + failures js /\
  total_fonts_processed (tally_of js t)
    = total_fonts_processed t + Z.of_nat (length js).
Proof.
  revert t. induction js as [|j js IH]; intros t.
  - unfold successes, failures. simpl. lia.
  - change (tally_of (j :: js) t) with (tally_of js (count (job_ok j) t)).
    destruct (IH (count (job_ok j) t)) as (-> & -> & ->).
    unfold successes, failures, count. simpl.
    destruct (job_ok j); simpl; lia.
Qed.

Lemma successes_failures js :
  successes js + failures js = Z.of_nat (length js).
Proof.
  unfold successes, failures.
  induction js as [|j js IH]; [done|]. simpl.
  destruct (job_ok j); simpl; lia.
Qed.

(** One job appends one record and counts its result. *)
Lemma run_job_spec font_file text_file output_dir font_index t w :
  exists ok w',
    run_job font_file text_file output_dir font_index (t, w)
      = (count ok t, w') /\
    compress_single_font font_file text_file output_dir font_index w
      = (ok, w') /\
    jobs w' = jobs w ++ [Job font_file font_index ok].
Proof.
  unfold run_job.
  pose proof (compress_single_font_jobs font_file text_file output_dir
                font_index w) as Ej.
  destruct (compress_single_font _ _ _ _ _) as [ok w']. simpl in Ej.
  by exists ok, w'.
Qed.

(** The inner loop: one job per index, in order. *)
Lemma fan_out_spec font_file text_file output_dir (idxs : list Z) t w :
  exists (oks : list bool) t' w',
    fold_left
      (fun s font_index =>
         run_job font_file text_file output_dir (Some font_index) s)
      idxs (t, w) = (t', w') /\
    length oks = length idxs /\
    jobs w' = jobs w ++
              zip_with (fun i ok => Job font_file (Some i) ok) idxs oks /\
    t' = tally_of
           (zip_with (fun i ok => Job font_file (Some i) ok) idxs oks) t.
Proof.
  revert t w. induction idxs as [|i idxs IH]; intros t w.
  - exists [], t, w. simpl. by rewrite app_nil_r.
  - destruct (run_job_spec font_file text_file output_dir (Some i) t w)
      as (ok & w1 & E & _ & Ej).
    cbn [fold_left]. rewrite E.
    destruct (IH (count ok t) w1) as (oks & t' & w' & -> & El & Ejs & Et).
    exists (ok :: oks), t', w'. simpl.
    rewrite Ejs, Ej, <- app_assoc. simpl. auto.
Qed.

Lemma reach_fan_out w0 font_file text_file output_dir (idxs : list Z) s :
  reach w0 s ->
  reach w0
    (fold_left
       (fun s font_index =>
          run_job font_file text_file output_dir (Some font_index) s)
       idxs s).
Proof.
  revert s. induction idxs as [|i idxs IH]; intros s Hs; [done|].
  simpl. apply IH. by constructor.
Qed.

(** The three ways the body of the loop ends. *)
Lemma process_font_file_cases text_file output_dir font_file s :
  (exists e,
     PyStr.lower (OsPath.suffix font_file) = ".ttc" /\
     get_font_count_in_collection (fs (snd s)) font_file = inl e /\
     process_font_file text_file output_dir font_file s = (inl e, snd s)) \/
  (exists K,
     PyStr.lower (OsPath.suffix font_file) = ".ttc" /\
     get_font_count_in_collection (fs (snd s)) font_file = inr K /\
     1 < K /\
     process_font_file text_file output_dir font_file s
       = returned
           (fold_left
              (fun s font_index =>
                 run_job font_file text_file output_dir (Some font_index) s)
              (range K) s)) \/
  ((PyStr.lower (OsPath.suffix font_file) <> ".ttc" \/
    exists K, get_font_count_in_collection (fs (snd s)) font_file = inr K /\
              K <= 1) /\
   process_font_file text_file output_dir font_file s
     = returned (run_job font_file text_file output_dir None s)).
Proof.
  unfold process_font_file.
  destruct (String.eqb_spec (PyStr.lower (OsPath.suffix font_file)) ".ttc")
    as [Ext|Hne]; [|right; right; split; [by left|done]].
  destruct (get_font_count_in_collection (fs (snd s)) font_file)
    as [e|K] eqn:EK.
  - left. by exists e.
  - right. destruct (Z.ltb_spec 1 K) as [HK|HK].
    + left. by exists K.
    + right. split; [|done]. right. by exists K.
Qed.

Lemma reach_process_font_file w0 text_file output_dir font_file s :
  reach w0 s ->
  match process_font_file text_file output_dir font_file s with
  | (inr t', w') => reach w0 (t', w')
  | (inl _, w') => w' = snd s
  end.
Proof.
  intros Hs.
  destruct (process_font_file_cases text_file output_dir font_file s)
    as [(e & _ & _ & ->)|[(K & _ & _ & _ & ->)|(_ & ->)]]; [done| |].
  - unfold returned. rewrite <- surjective_pairing. by apply reach_fan_out.
  - unfold returned. rewrite <- surjective_pairing. by constructor.
Qed.

(** The world in which the loop ends is a world between two jobs,
    also when the loop ends with an exception. *)
Lemma reach_batch_loop w0 font_files s :
  reach w0 s ->
  exists t',
    reach w0 (t', snd (batch_loop font_files s)) /\
    forall t'', fst (batch_loop font_files s) = inr t'' -> t'' = t'.
Proof.
  revert s. induction font_files as [|f fl IH]; intros s Hs.
  - exists (fst s). simpl. rewrite <- surjective_pairing.
    split; [done|]. by intros t'' [= <-].
  - simpl.
    pose proof (reach_process_font_file w0 text_file output_dir f s Hs) as Hp.
    destruct (process_font_file text_file output_dir f s) as [[e|t1] w1].
    + subst w1. exists (fst s). simpl. rewrite <- surjective_pairing.
      split; [done|]. by intros t''.
    + by apply IH.
Qed.

(** Between two jobs the counters count the job records. *)
Lemma reach_jobs w0 s :
  reach w0 s ->
  exists js, jobs (snd s) = jobs w0 ++ js /\ fst s = tally_of js tally0.
Proof.
  induction 1 as [|[t w] font_file text_file output_dir font_index Hs IH].
  - exists []. simpl. by rewrite app_nil_r.
  - destruct IH as (js & Ej & Et). simpl in Ej, Et.
    destruct (run_job_spec font_file text_file output_dir font_index t w)
      as (ok & w' & -> & _ & Ej').
    exists (js ++ [Job font_file font_index ok]). simpl.
    rewrite Ej', Ej, <- app_assoc. split; [done|].
    by rewrite tally_of_app, <- Et.
Qed.

(** Between two jobs the console has got job lines only. *)
Lemma reach_console w0 s :
  reach w0 s ->
  exists ls,
    console (snd s) = console w0 ++ ls /\
    Forall (fun l => forall a b c d, l <> MsgSummary a b c d) ls.
Proof.
  induction 1 as [|[t w] font_file text_file output_dir font_index Hs IH].
  - exists []. simpl. by rewrite app_nil_r.
  - destruct IH as (ls & Ec & Hls). simpl in Ec. unfold run_job.
    destruct (compress_single_font_console font_file text_file output_dir
                font_index w) as (ls' & Ec' & Hls').
    destruct (compress_single_font _ _ _ _ _) as [ok w']. simpl in *.
    exists (ls ++ ls'). rewrite Ec', Ec, <- app_assoc. split; [done|].
    by apply Forall_app.
Qed.

(** When the body of the loop returns, the font file has got at least
    one job, and all the new jobs carry its name; when it raises,
    nothing has been done. *)
Lemma process_font_file_jobs text_file output_dir font_file t w :
  match process_font_file text_file output_dir font_file (t, w) with
  | (inr t', w') =>
      exists js,
        js <> [] /\
        Forall (fun j => job_file j = font_file) js /\
        jobs w' = jobs w ++ js
  | (inl e, w') =>
      w' = w /\ e = UnboundLocalError /\ ttLib_importable = false /\
      PyStr.lower (OsPath.suffix font_file) = ".ttc"
  end.
Proof.
  destruct (process_font_file_cases text_file output_dir font_file (t, w))
    as [(e & Ext & Ee & ->)|[(K & _ & _ & HK & ->)|(_ & ->)]].
  - by destruct (inspector_raises _ _ _ Ee) as [-> ?].
  - unfold returned.
    destruct (fan_out_spec font_file text_file output_dir (range K) t w)
      as (oks & t' & w' & -> & El & Ej & _).
    simpl. eexists. split; [|split; [|exact Ej]].
    + unfold range in *. rewrite length_map, length_seq in El.
      destruct (Z.to_nat K) eqn:En; [lia|].
      destruct oks; [done|]. by rewrite <- cons_seq.
    + clear. generalize (range K). intros idxs. revert oks.
      induction idxs as [|i idxs IH]; intros [|ok oks]; simpl;
        constructor; auto.
  - unfold returned.
    destruct (run_job_spec font_file text_file output_dir None t w)
      as (ok & w' & -> & _ & Ej).
    simpl. exists [Job font_file None ok]. repeat split; [done| |done].
    by constructor.
Qed.

(** Without the library the body of the loop returns for the other
    extensions only. *)
Lemma process_returns_unimportable text_file output_dir font_file s t1 w1 :
  ttLib_importable = false ->
  process_font_file text_file output_dir font_file s = (inr t1, w1) ->
  PyStr.lower (OsPath.suffix font_file) <> ".ttc".
Proof.
  intros Hi Ep Ext. unfold process_font_file in Ep.
  rewrite Ext, String.eqb_refl in Ep.
  unfold get_font_count_in_collection in Ep. rewrite Hi in Ep.
  simpl in Ep. discriminate Ep.
Qed.

(** The jobs of the loop: when the loop returns, exactly the listed
    files have got jobs; when it raises, it does so at the first
    [.ttc] file, for want of the library, and exactly the files before
    that one have got theirs. *)
Lemma batch_loop_jobs font_files t w :
  exists js,
    jobs (snd (batch_loop font_files (t, w))) = jobs w ++ js /\
    match fst (batch_loop font_files (t, w)) with
    | inr _ =>
        (length font_files <= length js)%nat /\
        forall f, In f font_files <-> exists j, In j js /\ job_file j = f
    | inl e =>
        e = UnboundLocalError /\ ttLib_importable = false /\
        exists before f after,
          font_files = before ++ f :: after /\
          PyStr.lower (OsPath.suffix f) = ".ttc" /\
          Forall (fun g => PyStr.lower (OsPath.suffix g) <> ".ttc") before /\
          forall g, In g before <-> exists j, In j js /\ job_file j = g
    end.
Proof.
  revert t w. induction font_files as [|f fl IH]; intros t w.
  - exists []. simpl. rewrite app_nil_r. repeat split; [lia|done|].
    by intros (j & [] & _).
  - simpl.
    pose proof (process_font_file_jobs text_file output_dir f t w) as Hp.
    destruct (process_font_file text_file output_dir f (t, w))
      as [[e|t1] w1] eqn:Ep.
    + destruct Hp as (-> & -> & Hi & Ext). exists []. simpl.
      rewrite app_nil_r. repeat split; try done.
      exists [], f, fl. repeat split; try done.
      by intros (j & [] & _).
    + destruct Hp as (js1 & Hne & Hall & Ej1).
      destruct (IH t1 w1) as (js2 & Ej2 & Hrest).
      exists (js1 ++ js2). rewrite Ej2, Ej1, <- app_assoc. split; [done|].
      assert (forall g, g = f <-> exists j, In j js1 /\ job_file j = g) as Hf.
      { intros g. split.
        - intros ->. destruct js1 as [|j js1]; [done|].
          exists j. split; [by left|]. by inversion Hall.
        - intros (j & Hj & <-). rewrite List.Forall_forall in Hall.
          by apply Hall. }
      assert (forall (l : list string),
                (forall g, In g l <-> exists j, In j js2 /\ job_file j = g) ->
                forall g, In g (f :: l) <->
                          exists j, In j (js1 ++ js2) /\ job_file j = g)
        as Hcons.
      { intros l Hl g. split.
        - intros [<-|Hg].
          + destruct (proj1 (Hf f) eq_refl) as (j & Hj & Ef).
            exists j. split; [|done]. apply in_or_app. by left.
          + destruct (proj1 (Hl g) Hg) as (j & Hj & Ef).
            exists j. split; [|done]. apply in_or_app. by right.
        - intros (j & Hj & Ef). apply in_app_or in Hj as [Hj|Hj].
          + left. symmetry. apply Hf. by exists j.
          + right. apply Hl. by exists j. }
      destruct (fst (batch_loop fl (t1, w1))) as [e|t2].
      * destruct Hrest
          as (-> & Hi & before & f' & after & -> & Ext & Hbefore & Hcov).
        repeat split; try done.
        exists (f :: before), f', after. repeat split; try done.
        -- constructor; [|done].
           by apply (process_returns_unimportable _ _ _ _ _ _ Hi Ep).
        -- by apply Hcons.
        -- by apply Hcons.
      * destruct Hrest as (Hlen & Hcov). split.
        -- rewrite length_app. destruct js1; [done|]. simpl. lia.
        -- by apply Hcons.
Qed.

(** The loop returns when the library can be imported, and when no
    [.ttc] file is listed. *)
Lemma batch_loop_completes font_files s :
  ttLib_importable = true \/
    Forall (fun f => PyStr.lower (OsPath.suffix f) <> ".ttc") font_files ->
  exists t', fst (batch_loop font_files s) = inr t'.
Proof.
  revert s. induction font_files as [|f fl IH]; intros [t w] Hok.
  - by exists t.
  - simpl.
    pose proof (process_font_file_jobs text_file output_dir f t w) as Hp.
    destruct (process_font_file text_file output_dir f (t, w))
      as [[e|t1] w1].
    + destruct Hp as (_ & _ & Hi & Ext). destruct Hok as [Hok|Hok].
      * congruence.
      * by inversion Hok.
    + apply IH. destruct Hok as [?|Hok]; [by left|right]. by inversion Hok.
Qed.

Lemma get_font_files_insert_ne (m : gmap string node) (p d : string) (n : node) :
  p <> d -> get_font_files (<[p := n]> m) d = get_font_files m d.
Proof.
  intros Hne. unfold get_font_files, glob_glob.
  by rewrite lookup_insert_ne.
Qed.

(** The world after [os.makedirs(output_dir, exist_ok=True)]
    succeeded. *)
Lemma makedirs_cases w :
  (exists sz, fs w !! output_dir = Some (File sz) /\
              os_makedirs output_dir w = (inl FileExistsError, w)) \/
  (exists w1, os_makedirs output_dir w = (inr tt, w1) /\
              (forall sz, fs w !! output_dir <> Some (File sz)) /\
              (exists sz es, fs w1 !! output_dir = Some (Dir sz es)) /\
              console w1 = console w /\ calls w1 = calls w /\
              jobs w1 = jobs w /\
              get_font_files (fs w1) source_dir
                = get_font_files (fs w) source_dir).
Proof.
  unfold os_makedirs.
  destruct (fs w !! output_dir) as [[sz|sz es]|] eqn:E.
  - left. by exists sz.
  - right. exists w. repeat split; try done. by exists sz, es.
  - right. eexists. split; [done|]. repeat split; try done.
    + exists 0%N, []. simpl. by rewrite lookup_insert_eq.
    + simpl. by apply get_font_files_insert_ne.
Qed.

(** The six ways a batch run ends. *)
Lemma batch_cases w :
  (fs w !! source_dir = None /\
   batch_compress_fonts w = (inr false, print (MsgNoSourceDir source_dir) w)) \/
  (is_Some (fs w !! source_dir) /\ fs w !! text_file = None /\
   batch_compress_fonts w = (inr false, print (MsgNoTextFile text_file) w)) \/
  (is_Some (fs w !! source_dir) /\ is_Some (fs w !! text_file) /\
   (exists sz, fs w !! output_dir = Some (File sz)) /\
   batch_compress_fonts w = (inl FileExistsError, w)) \/
  (is_Some (fs w !! source_dir) /\ is_Some (fs w !! text_file) /\
   exists w1,
     os_makedirs output_dir w = (inr tt, w1) /\
     get_font_files (fs w) source_dir = [] /\
     batch_compress_fonts w = (inr false, print (MsgNoFonts source_dir) w1)) \/
  (is_Some (fs w !! source_dir) /\ is_Some (fs w !! text_file) /\
   exists w1 t w2,
     os_makedirs output_dir w = (inr tt, w1) /\
     get_font_files (fs w) source_dir <> [] /\
     batch_loop (get_font_files (fs w) source_dir) (tally0, w1)
       = (inr t, w2) /\
     batch_compress_fonts w =
       (inr (0 <? successful_count t),
        print (MsgSummary
                 (Z.of_nat (length (get_font_files (fs w) source_dir)))
                 (total_fonts_processed t) (successful_count t)
                 (failed_count t)) w2)) \/
  (is_Some (fs w !! source_dir) /\ is_Some (fs w !! text_file) /\
   exists w1 e w2,
     os_makedirs output_dir w = (inr tt, w1) /\
     get_font_files (fs w) source_dir <> [] /\
     batch_loop (get_font_files (fs w) source_dir) (tally0, w1)
       = (inl e, w2) /\
     batch_compress_fonts w = (inl e, w2)).
Proof.
  unfold batch_compress_fonts, bind, os_path_exists, say, ret.
  destruct (fs w !! source_dir) as [src|] eqn:Es.
  2:{ left. by rewrite bool_decide_eq_false_2 by (by intros [? ?]). }
  right. rewrite bool_decide_eq_true_2 by eauto. simpl.
  destruct (fs w !! text_file) as [txt|] eqn:Et.
  2:{ left. rewrite bool_decide_eq_false_2 by (by intros [? ?]).
      split; [eauto|done]. }
  right. rewrite bool_decide_eq_true_2 by eauto. simpl.
  destruct (makedirs_cases w) as [(sz & Eo & ->)|(w1 & -> & _ & _ & _ & _ & _ & Eg)].
  { left. repeat split; eauto. }
  right. rewrite Eg.
  destruct (get_font_files (fs w) source_dir) as [|f fl] eqn:Egf.
  { left. repeat split; eauto. }
  right.
  destruct (batch_loop (f :: fl) (tally0, w1)) as [[e|t] w2] eqn:El.
  - right. repeat split; eauto. exists w1, e, w2. repeat split; try done.
  - left. repeat split; eauto. exists w1, t, w2. repeat split; try done.
Qed.

End Orchestrator.

Section OrchestratorClaims.

Context `{External}.

Lemma in_range (n i : Z) : In i (range n) <-> 0 <= i < n.
Proof.
  unfold range. rewrite in_map_iff. split.
  - intros (k & <- & Hk). apply in_seq in Hk. lia.
  - intros Hi. exists (Z.to_nat i). split; [lia|]. apply in_seq. lia.
Qed.

Lemma NoDup_range (n : Z) : NoDup (range n).
Proof.
  unfold range. apply (NoDup_fmap_2 Z.of_nat), NoDup_seq.
Qed.

Lemma length_range (n : Z) : length (range n) = Z.to_nat n.
Proof. unfold range. by rewrite length_map, length_seq. Qed.

Lemma output_file_of_inj (font_file dir : string) (i j : Z) :
  output_file_of font_file dir (Some i) = output_file_of font_file dir (Some j) ->
  i = j.
Proof.
  unfold output_file_of. intros E.
  apply join_inj_dash in E. apply sapp_inv_tail in E. by apply str_inj.
Qed.

(** C1. For every collection ([.ttc]) file whose inspector reports a
    count [K > 1], the orchestrator runs exactly [K] jobs for that
    file, one per index [0..K-1] in order, each invoked with its own
    index, and the output file names [stem-index-subset.ttf] of these
    jobs are pairwise distinct. *)
Theorem C1_collection_fan_out (font_file : string) (K : Z) (t : Tally)
  (w : World) :
  PyStr.lower (OsPath.suffix font_file) = ".ttc" ->
  get_font_count_in_collection (fs w) font_file = inr K ->
  1 < K ->
  let s' := process_font_file text_file output_dir font_file (t, w) in
  (exists oks : list bool,
     length oks = Z.to_nat K /\
     jobs (snd s') =
       jobs w ++
       zip_with (fun i ok => Job font_file (Some i) ok) (range K) oks) /\
  (exists t', fst s' = inr t' /\
              total_fonts_processed t' = total_fonts_processed t + K) /\
  length (range K) = Z.to_nat K /\
  (forall i, In i (range K) <-> 0 <= i < K) /\
  (forall i,
     output_file_of font_file output_dir (Some i) =
     OsPath.join output_dir
       (OsPath.stem font_file +:+ "-" +:+ PyStr.str i +:+ "-subset.ttf")) /\
  NoDup (map (fun i => output_file_of font_file output_dir (Some i))
           (range K)).
Proof.
  intros Ext EK HK s'.
  assert (s' = returned
                 (fold_left
                    (fun s font_index =>
                       run_job font_file text_file output_dir
                         (Some font_index) s)
                    (range K) (t, w))) as Es.
  { unfold s', process_font_file. rewrite Ext. simpl snd. rewrite EK.
    replace (1 <? K) with true by (symmetry; apply Z.ltb_lt; lia).
    reflexivity. }
  destruct (fan_out_spec font_file text_file output_dir (range K) t w)
    as (oks & t' & w' & Ef & El & Ej & Et).
  rewrite Ef in Es. subst s'. rewrite Es. unfold returned. simpl fst. simpl snd.
  rewrite length_range in El.
  split; [by exists oks|]. split.
  { exists t'. split; [done|]. rewrite Et.
    destruct (tally_of_counts
                (zip_with (fun i ok => Job font_file (Some i) ok)
                   (range K) oks) t) as (_ & _ & ->).
    rewrite length_zip_with, length_range, El. lia. }
  split; [apply length_range|]. split; [apply in_range|].
  split; [done|].
  apply (NoDup_fmap_2_strong
           (fun i => output_file_of font_file output_dir (Some i)));
    [|apply NoDup_range].
  intros i j _ _. apply output_file_of_inj.
Qed.

(** C2. At every point of a batch run between two jobs, and in the
    final summary, the success counter plus the failure counter
    equals the number of jobs processed: the three counters count the
    job records, every job adding one to the processed total and one
    to exactly one of the two others. *)
Theorem C2_counters_add_up (w0 : World) :
  (forall s, reach w0 s ->
     successful_count (fst s) + failed_count (fst s)
       = total_fonts_processed (fst s) /\
     exists js,
       jobs (snd s) = jobs w0 ++ js /\
       successful_count (fst s) = successes js /\
       failed_count (fst s) = failures js /\
       total_fonts_processed (fst s) = Z.of_nat (length js)) /\
  (forall font_files,
     exists t,
       reach w0 (t, snd (batch_loop font_files (tally0, w0))) /\
       forall t', fst (batch_loop font_files (tally0, w0)) = inr t' ->
                  t' = t) /\
  (forall r w',
     batch_compress_fonts w0 = (r, w') ->
     forall files total ok failed,
       last (console w') = Some (MsgSummary files total ok failed) ->
       console w' <> console w0 ->
       ok + failed = total).
Proof.
  assert (forall w s, reach w s ->
            successful_count (fst s) + failed_count (fst s)
              = total_fonts_processed (fst s) /\
            exists js,
              jobs (snd s) = jobs w ++ js /\
              successful_count (fst s) = successes js /\
              failed_count (fst s) = failures js /\
              total_fonts_processed (fst s) = Z.of_nat (length js)) as Hinv.
  { intros w s Hs. destruct (reach_jobs _ _ Hs) as (js & Ej & Et).
    destruct (tally_of_counts js tally0) as (Es & Ef & Etot).
    rewrite <- Et in Es, Ef, Etot. simpl in Es, Ef, Etot.
    pose proof (successes_failures js).
    split; [lia|]. exists js. repeat split; [done|lia..]. }
  split; [apply Hinv|]. split.
  { intros font_files. apply reach_batch_loop. constructor. }
  intros r w' Eb files total ok failed Elast Hne.
  destruct (batch_cases w0)
    as [(_ & E)|[(_ & _ & E)|[(_ & _ & _ & E)|[(_ & _ & w1 & _ & _ & E)
       |[(_ & _ & w1 & t & w2 & _ & _ & El & E)
        |(_ & _ & w1 & e & w2 & Em & _ & El & E)]]]]];
    rewrite E in Eb; injection Eb as <- <-; simpl in Elast;
    rewrite ?last_snoc in Elast; try done.
  - injection Elast as _ <- <- <-.
    destruct (reach_batch_loop w1 (get_font_files (fs w0) source_dir) _
                (reach_init w1)) as (t' & Hr & Ht).
    rewrite El in Hr, Ht. simpl in Hr, Ht. rewrite <- (Ht t eq_refl) in Hr.
    by destruct (Hinv _ _ Hr) as [? _].
  - exfalso.
    destruct (reach_batch_loop w1 (get_font_files (fs w0) source_dir) _
                (reach_init w1)) as (t' & Hr & _).
    rewrite El in Hr. simpl in Hr.
    destruct (reach_console _ _ Hr) as (ls & Ec & Hls). simpl in Ec.
    destruct (makedirs_cases w0)
      as [(sz & _ & Em')|(w1' & Em' & _ & _ & Ec1 & _)];
      rewrite Em' in Em; [done|]. injection Em as ->.
    rewrite Ec1 in Ec. rewrite Ec in Elast, Hne.
    destruct ls as [|l ls _] using rev_ind.
    + by rewrite app_nil_r in Hne.
    + rewrite app_assoc, last_snoc in Elast. injection Elast as ->.
      apply Forall_app in Hls as [_ Hl]. inversion Hl as [|? ? Hl' _].
      by eapply Hl'.
Qed.

End OrchestratorClaims.

Section FailurePaths.

Context `{External}.

(** Without the tool no job succeeds. *)
Lemma compress_single_font_missing font_file text_file output_dir
  font_index w :
  tool_missing ->
  fst (compress_single_font font_file text_file output_dir font_index w)
    = false.
Proof.
  intros Hm. unfold compress_single_font, compress_single_font_body.
  repeat case_match; simplify_eq/=; try done.
  all: match goal with
       | E : try_body _ _ _ _ _ = _ |- _ =>
           rewrite try_body_missing in E by done; by simplify_eq
       end.
Qed.

Lemma reach_missing w0 s :
  tool_missing -> reach w0 s ->
  exists js,
    jobs (snd s) = jobs w0 ++ js /\ fst s = tally_of js tally0 /\
    Forall (fun j => job_ok j = false) js.
Proof.
  intros Hm.
  induction 1 as [|[t w] font_file text_file output_dir font_index Hs IH].
  - exists []. simpl. by rewrite app_nil_r.
  - destruct IH as (js & Ej & Et & Hall). simpl in Ej, Et.
    destruct (run_job_spec font_file text_file output_dir font_index t w)
      as (ok & w' & -> & Ec & Ej').
    pose proof (compress_single_font_missing font_file text_file output_dir
                  font_index w Hm) as Eok.
    rewrite Ec in Eok. simpl in Eok. subst ok.
    exists (js ++ [Job font_file font_index false]). simpl.
    rewrite Ej', Ej, <- app_assoc. split; [done|]. split.
    + by rewrite tally_of_app, <- Et.
    + apply Forall_app. split; [done|]. by constructor.
Qed.

Lemma successes_none js :
  Forall (fun j => job_ok j = false) js -> successes js = 0.
Proof.
  unfold successes. induction 1 as [|j js Hj _ IH]; [done|].
  simpl. by rewrite Hj.
Qed.

(** C4 (amended). If the external tool is absent, every job that
    reaches the invocation starts the tool, reports the
    tool-not-found diagnostic and is classified Failure, and this
    failure never ends the batch: all the jobs that run fail, and
    whenever the collection inspector returns for the [.ttc] files
    (it does when the fontTools library can be imported, and it is not
    called when no [.ttc] file is listed) the loop runs to its end,
    every font file gets its jobs, and the failure counter equals the
    number of jobs processed. *)
Theorem C4_missing_tool_fails_every_job :
  tool_missing ->
  (forall font_file text_file output_dir font_index w,
     is_Some (fs w !! font_file) -> is_Some (fs w !! text_file) ->
     compress_single_font font_file text_file output_dir font_index w =
     (false,
      log_job (Job font_file font_index false)
        (print MsgToolNotFound
           (log_call
              (command_of font_file text_file
                 (output_file_of font_file output_dir font_index)
                 font_index) w)))) /\
  (forall font_files w,
     exists js,
       jobs (snd (batch_loop font_files (tally0, w))) = jobs w ++ js /\
       Forall (fun j => job_ok j = false) js) /\
  (forall font_files w,
     ttLib_importable = true \/
       Forall (fun f => PyStr.lower (OsPath.suffix f) <> ".ttc") font_files ->
     exists t js,
       fst (batch_loop font_files (tally0, w)) = inr t /\
       successful_count t = 0 /\
       failed_count t = total_fonts_processed t /\
       Z.of_nat (length font_files) <= total_fonts_processed t /\
       jobs (snd (batch_loop font_files (tally0, w))) = jobs w ++ js /\
       Forall (fun j => job_ok j = false) js /\
       forall f, In f font_files -> exists j, In j js /\ job_file j = f).
Proof.
  intros Hm. split; [|split].
  - intros font_file text_file output_dir font_index w Hf Ht.
    unfold compress_single_font.
    rewrite body_when_present by done.
    by rewrite try_body_missing by done.
  - intros font_files w.
    destruct (reach_batch_loop w font_files _ (reach_init w))
      as (t & Hr & _).
    destruct (reach_missing w _ Hm Hr) as (js & Ej & _ & Hall).
    by exists js.
  - intros font_files w Hok.
    destruct (batch_loop_completes font_files (tally0, w) Hok) as [t Et].
    destruct (reach_batch_loop w font_files _ (reach_init w))
      as (t' & Hr & Ht).
    rewrite <- (Ht t Et) in Hr.
    destruct (reach_missing w _ Hm Hr) as (js & Ej & Etj & Hall).
    simpl in Ej, Etj.
    destruct (batch_loop_jobs font_files tally0 w) as (js' & Ej' & Hjobs).
    rewrite Et in Hjobs. destruct Hjobs as [Hlen Hcov].
    rewrite Ej in Ej'. apply app_inv_head in Ej'. subst js'.
    destruct (tally_of_counts js tally0) as (Es & Ef & Etot).
    rewrite <- Etj in Es, Ef, Etot. simpl in Es, Ef, Etot.
    pose proof (successes_failures js).
    pose proof (successes_none js Hall).
    exists t, js. repeat split; [done|lia..|done|done|].
    intros f Hf. by apply Hcov.
Qed.

(** C6 (amended). A collection file for which the inspector reports 0
    is not fanned out: it is handed to the invoker as one ordinary
    job without index, whose output is [stem-subset.ttf] and whose
    classification is the one the invoker returns; the batch then
    continues with the remaining files. *)
Theorem C6_indeterminate_collection_single_job (font_file : string)
  (rest : list string) (t : Tally) (w : World) :
  PyStr.lower (OsPath.suffix font_file) = ".ttc" ->
  get_font_count_in_collection (fs w) font_file = inr 0 ->
  exists ok w',
    compress_single_font font_file text_file output_dir None w = (ok, w') /\
    process_font_file text_file output_dir font_file (t, w)
      = (inr (count ok t), w') /\
    jobs w' = jobs w ++ [Job font_file None ok] /\
    output_file_of font_file output_dir None
      = OsPath.join output_dir (OsPath.stem font_file +:+ "-subset.ttf") /\
    batch_loop (font_file :: rest) (t, w) = batch_loop rest (count ok t, w').
Proof.
  intros Ext E0.
  destruct (run_job_spec font_file text_file output_dir None t w)
    as (ok & w' & Er & Ec & Ej).
  assert (process_font_file text_file output_dir font_file (t, w)
          = (inr (count ok t), w')) as Ep.
  { unfold process_font_file. rewrite Ext, String.eqb_refl. simpl snd.
    rewrite E0. change (1 <? 0) with false. cbv iota. by rewrite Er. }
  exists ok, w'. repeat split; try done.
  - unfold output_file_of. by rewrite Ext.
  - simpl. by rewrite Ep.
Qed.

(** C7. If the source directory is missing, the character-list file
    is missing, or no font file is discovered, the batch ends before
    any job runs: the tool is never started, no job is recorded (the
    counts of successes, failures and processed jobs are zero), and
    the result is [False] (or, when the output directory cannot be
    created on the no-font path, the exception of [os.makedirs]). *)
Theorem C7_fatal_preconditions (w : World) (r : exn + bool) (w' : World) :
  fs w !! source_dir = None \/ fs w !! text_file = None \/
    get_font_files (fs w) source_dir = [] ->
  batch_compress_fonts w = (r, w') ->
  calls w' = calls w /\
  jobs w' = jobs w /\
  (forall js, jobs w' = jobs w ++ js ->
     successes js = 0 /\ failures js = 0 /\ length js = 0%nat) /\
  r <> inr true /\
  ((forall sz, fs w !! output_dir <> Some (File sz)) -> r = inr false).
Proof.
  intros Hpre Eb.
  assert (calls w' = calls w /\ jobs w' = jobs w /\ r <> inr true /\
          ((forall sz, fs w !! output_dir <> Some (File sz)) -> r = inr false))
    as (Ec & Ej & Hr & Hf).
  { destruct (batch_cases w)
      as [(_ & E)|[(_ & _ & E)|[(_ & _ & (sz & Eo) & E)
         |[(_ & _ & w1 & Em & _ & E)
         |[(Hs & Ht & w1 & t & w2 & _ & Hne & _ & _)
          |(Hs & Ht & w1 & e & w2 & _ & Hne & _ & _)]]]]].
    - rewrite E in Eb. by injection Eb as <- <-.
    - rewrite E in Eb. by injection Eb as <- <-.
    - rewrite E in Eb. injection Eb as <- <-. repeat split; try done.
      intros Hno. by destruct (Hno sz).
    - rewrite E in Eb. injection Eb as <- <-.
      destruct (makedirs_cases w)
        as [(sz & _ & Em')|(w1' & Em' & _ & _ & _ & Ec & Ej & _)];
        rewrite Em' in Em; [done|]. injection Em as ->. by simpl.
    - destruct Hs as [? Hs], Ht as [? Ht].
      destruct Hpre as [Hp|[Hp|Hp]]; congruence.
    - destruct Hs as [? Hs], Ht as [? Ht].
      destruct Hpre as [Hp|[Hp|Hp]]; congruence. }
  split; [done|]. split; [done|]. split; [|done].
  intros js Ejs. rewrite Ej in Ejs.
  rewrite <- (app_nil_r (jobs w)) in Ejs at 1.
  apply app_inv_head in Ejs. by subst js.
Qed.

(** C10. When the source directory and the character-list file exist
    but no font file is discovered, the output directory exists after
    the run although the run fails; when the source directory or the
    character-list file is missing, the file system is left as it
    was, so that the output directory is never created. *)
Theorem C10_output_dir_creation (w : World) (r : exn + bool) (w' : World) :
  batch_compress_fonts w = (r, w') ->
  (is_Some (fs w !! source_dir) -> is_Some (fs w !! text_file) ->
   get_font_files (fs w) source_dir = [] ->
   (forall sz, fs w !! output_dir <> Some (File sz)) ->
   r = inr false /\ exists sz es, fs w' !! output_dir = Some (Dir sz es)) /\
  (fs w !! source_dir = None \/ fs w !! text_file = None ->
   r = inr false /\ fs w' = fs w).
Proof.
  intros Eb.
  destruct (batch_cases w)
    as [(Es & E)|[(Hs & Et & E)|[(Hs & Ht & (sz & Eo) & E)
       |[(Hs & Ht & w1 & Em & Eg & E)
       |[(Hs & Ht & w1 & t & w2 & _ & Hne & _ & _)
        |(Hs & Ht & w1 & e & w2 & _ & Hne & _ & _)]]]]].
  - rewrite E in Eb. injection Eb as <- <-. split; [|done].
    intros [? ?]. congruence.
  - rewrite E in Eb. injection Eb as <- <-. split; [|done].
    intros _ [? ?]. congruence.
  - rewrite E in Eb. injection Eb as <- <-. split.
    + intros _ _ _ Hno. by destruct (Hno sz).
    + destruct Hs as [? Hs], Ht as [? Ht]. intros [?|?]; congruence.
  - rewrite E in Eb. injection Eb as <- <-. split.
    + intros _ _ _ _. split; [done|].
      destruct (makedirs_cases w)
        as [(sz & _ & Em')|(w1' & Em' & _ & Hd & _)];
        rewrite Em' in Em; [done|]. by injection Em as ->.
    + destruct Hs as [? Hs], Ht as [? Ht]. intros [?|?]; congruence.
  - split.
    + by intros _ _ Hg.
    + destruct Hs as [? Hs], Ht as [? Ht]. intros [?|?]; congruence.
  - split.
    + by intros _ _ Hg.
    + destruct Hs as [? Hs], Ht as [? Ht]. intros [?|?]; congruence.
Qed.

End FailurePaths.

(* ===================================================================== *)
(** * The claims on concrete runs *)
(* ===================================================================== *)

Lemma C1_collection_fan_out_witness :
  (exists t',
     fst (@process_font_file Scenario.installed text_file output_dir
            "sourceFont/Collection.ttc"
            (tally0, Scenario.world_of Scenario.disk)) = inr t' /\
     total_fonts_processed t' = 0 + 2) /\
  NoDup (map (fun i => output_file_of "sourceFont/Collection.ttc" output_dir
                         (Some i)) (range 2)).
Proof.
  destruct (@C1_collection_fan_out Scenario.installed
              "sourceFont/Collection.ttc" 2 tally0
              (Scenario.world_of Scenario.disk))
    as (_ & Ht & _ & _ & _ & Hn); [reflexivity | reflexivity | lia |].
  exact (conj Ht Hn).
Defined.

Lemma C2_counters_add_up_witness :
  exists t,
    fst (@batch_loop Scenario.installed
           ["sourceFont/Serif.ttf"; "sourceFont/Collection.ttc"]
           (tally0, Scenario.world_of Scenario.disk)) = inr t /\
    successful_count t + failed_count t = total_fonts_processed t.
Proof.
  destruct (@C2_counters_add_up Scenario.installed
              (Scenario.world_of Scenario.disk)) as (Hinv & Hreach & _).
  destruct (Hreach ["sourceFont/Serif.ttf"; "sourceFont/Collection.ttc"])
    as (t & Hr & Ht).
  exists t. split.
  - destruct (@batch_loop_completes Scenario.installed
                ["sourceFont/Serif.ttf"; "sourceFont/Collection.ttc"]
                (tally0, Scenario.world_of Scenario.disk)
                (or_introl eq_refl)) as [t' Et].
    rewrite Et. f_equal. by apply Ht.
  - exact (proj1 (Hinv _ Hr)).
Defined.

(** C4 as stated fails: without the tool, the batch over two fonts
    starts the tool twice, reports the missing tool twice and runs to
    its summary, whether or not the fontTools library can be imported;
    and with a collection in the directory (the library imported, the
    executable not found) it starts the tool three times. *)
Lemma C4_batch_continues_without_tool :
  @tool_missing Scenario.uninstalled /\
  (let '(r, w) := @batch_compress_fonts Scenario.uninstalled
                    (Scenario.world_of Scenario.disk_two) in
   (r, console w, calls w, jobs w)) =
  (inr false,
   [MsgToolNotFound; MsgToolNotFound; MsgSummary 2 2 0 2],
   [["fonttools"; "subset"; "sourceFont/a.ttf"; "--text-file=txt.txt";
     "--output-file=targetFont/a-subset.ttf"];
    ["fonttools"; "subset"; "sourceFont/b.otf"; "--text-file=txt.txt";
     "--output-file=targetFont/b-subset.otf"]],
   [Job "sourceFont/a.ttf" None false; Job "sourceFont/b.otf" None false]) /\
  @tool_missing Scenario.missing /\
  (let '(r, w) := @batch_compress_fonts Scenario.missing
                    (Scenario.world_of Scenario.disk) in
   (r, console w, map (fun cmd => nth_error cmd 2) (calls w), jobs w)) =
  (inr false,
   [MsgToolNotFound; MsgToolNotFound; MsgToolNotFound; MsgSummary 2 3 0 3],
   [Some "sourceFont/Serif.ttf"; Some "sourceFont/Collection.ttc";
    Some "sourceFont/Collection.ttc"],
   [Job "sourceFont/Serif.ttf" None false;
    Job "sourceFont/Collection.ttc" (Some 0) false;
    Job "sourceFont/Collection.ttc" (Some 1) false]).
Proof.
  split; [by intros m cmd|]. split; [reflexivity|].
  split; [by intros m cmd|reflexivity].
Qed.

Lemma C4_missing_tool_fails_every_job_witness :
  exists t js,
    fst (@batch_loop Scenario.missing
           ["sourceFont/Serif.ttf"; "sourceFont/Collection.ttc"]
           (tally0, Scenario.world_of Scenario.disk)) = inr t /\
    successful_count t = 0 /\
    failed_count t = total_fonts_processed t /\
    Z.of_nat 2 <= total_fonts_processed t /\
    jobs (snd (@batch_loop Scenario.missing
                 ["sourceFont/Serif.ttf"; "sourceFont/Collection.ttc"]
                 (tally0, Scenario.world_of Scenario.disk))) = [] ++ js /\
    Forall (fun j => job_ok j = false) js /\
    forall f,
      In f ["sourceFont/Serif.ttf"; "sourceFont/Collection.ttc"] ->
      exists j, In j js /\ job_file j = f.
Proof.
  destruct (@C4_missing_tool_fails_every_job Scenario.missing) as (_ & _ & Hb);
    [by intros m cmd|].
  apply (Hb ["sourceFont/Serif.ttf"; "sourceFont/Collection.ttc"]
            (Scenario.world_of Scenario.disk)).
  left. reflexivity.
Defined.

(** C6 as stated fails: a collection that does not parse has count 0,
    and is nevertheless subset as an ordinary single font; here the
    job succeeds and the batch reports one success and no failure. *)
Lemma C6_indeterminate_collection_is_subset :
  @get_font_count_in_collection Scenario.installed Scenario.disk_broken
    "sourceFont/Broken.ttc" = inr 0 /\
  (let '(r, w) := @batch_compress_fonts Scenario.installed
                    (Scenario.world_of Scenario.disk_broken) in
   (r, console w, calls w, jobs w)) =
  (inr true,
   [MsgSuccess "Broken-subset.ttf"; MsgSizes 4096 1; MsgSummary 1 1 1 0],
   [["fonttools"; "subset"; "sourceFont/Broken.ttc"; "--text-file=txt.txt";
     "--output-file=targetFont/Broken-subset.ttf"]],
   [Job "sourceFont/Broken.ttc" None true]).
Proof. split; reflexivity. Qed.

Lemma C6_indeterminate_collection_single_job_witness :
  exists ok w',
    @process_font_file Scenario.installed text_file output_dir
      "sourceFont/Broken.ttc" (tally0, Scenario.world_of Scenario.disk_broken)
      = (inr (count ok tally0), w') /\
    jobs w' = [Job "sourceFont/Broken.ttc" None ok].
Proof.
  destruct (@C6_indeterminate_collection_single_job Scenario.installed
              "sourceFont/Broken.ttc" [] tally0
              (Scenario.world_of Scenario.disk_broken))
    as (ok & w' & _ & Ep & Ej & _); [reflexivity | reflexivity |].
  exists ok, w'. exact (conj Ep Ej).
Defined.

Lemma C7_fatal_preconditions_witness :
  let run := @batch_compress_fonts Scenario.installed
               (Scenario.world_of Scenario.disk_empty) in
  calls (snd run) = [] /\ jobs (snd run) = [] /\ fst run = inr false.
Proof.
  intros run.
  destruct (@C7_fatal_preconditions Scenario.installed
              (Scenario.world_of Scenario.disk_empty) (fst run) (snd run))
    as (Hc & Hj & _ & _ & Hr).
  - right. right. reflexivity.
  - reflexivity.
  - split; [exact Hc|]. split; [exact Hj|]. apply Hr. intros sz. discriminate.
Defined.

Lemma C10_output_dir_creation_witness :
  let run := @batch_compress_fonts Scenario.installed
               (Scenario.world_of Scenario.disk_empty) in
  fst run = inr false /\
  exists sz es, fs (snd run) !! output_dir = Some (Dir sz es).
Proof.
  intros run.
  destruct (@C10_output_dir_creation Scenario.installed
              (Scenario.world_of Scenario.disk_empty) (fst run) (snd run))
    as [Hz _]; [reflexivity|].
  apply Hz.
  - vm_compute. eauto.
  - vm_compute. eauto.
  - reflexivity.
  - intros sz. discriminate.
Defined.

(* ===================================================================== *)
(** * Font discovery *)
(* ===================================================================== *)

Section Discovery.

Implicit Types (m : gmap string node) (lit name : string).

Lemma fnmatch_literal lit name :
  Glob.has_wildcard lit = false ->
  Glob.fnmatchcase lit name = String.eqb lit name.
Proof.
  revert name. induction lit as [|c lit IH]; intros name Hw.
  - by destruct name.
  - simpl in Hw. apply orb_false_elim in Hw as [Hw Hl].
    apply orb_false_elim in Hw as [Hs Hq].
    simpl. rewrite Hs, Hq.
    destruct name as [|e name]; [done|]. simpl.
    rewrite IH by done. by destruct (Ascii.eqb c e).
Qed.

Lemma fnmatch_star lit name :
  Glob.has_wildcard lit = false ->
  Glob.fnmatchcase (String "*" lit) name = true <->
  exists pre, name = pre +:+ lit.
Proof.
  intros Hw. simpl.
  induction name as [|c name IH].
  - rewrite fnmatch_literal, orb_false_r by done. split.
    + intros E. apply String.eqb_eq in E. subst lit. by exists "".
    + intros [[|a pre] E]; [|done].
      rewrite sapp_nil_l in E. subst lit. apply String.eqb_refl.
  - rewrite orb_true_iff, fnmatch_literal by done. split.
    + intros [E|E].
      * apply String.eqb_eq in E. subst lit. by exists "".
      * apply IH in E as [pre ->]. by exists (String c pre).
    + intros [[|a pre] E].
      * left. rewrite sapp_nil_l in E. subst lit. apply String.eqb_refl.
      * right. apply IH. rewrite sapp_cons in E. injection E as _ ->.
        by exists pre.
Qed.

(** What one pattern [*lit] selects. *)
Lemma glob_glob_star m (d lit p : string) :
  Glob.has_wildcard lit = false ->
  In p (glob_glob m d (String "*" lit)) <->
  exists sz entries name,
    m !! d = Some (Dir sz entries) /\ In name entries /\
    Glob._ishidden name = false /\ (exists pre, name = pre +:+ lit) /\
    p = OsPath.join d name.
Proof.
  intros Hw. unfold glob_glob, Glob._glob1.
  change (Glob._ishidden (String "*" lit)) with false. cbv iota.
  rewrite in_map_iff. split.
  - intros (name & <- & Hin).
    apply filter_In in Hin as [Hin Hm]. apply filter_In in Hin as [Hin Hh].
    apply fnmatch_star in Hm; [|done]. apply negb_true_iff in Hh.
    destruct (m !! d) as [[?|sz entries]|]; try done.
    by exists sz, entries, name.
  - intros (sz & entries & name & -> & Hin & Hh & Hpre & ->).
    exists name. split; [done|].
    apply filter_In. split; [|by apply fnmatch_star].
    apply filter_In. split; [done|]. by rewrite Hh.
Qed.

(** The loop over the extensions collects both patterns of each. *)
Lemma in_fold_patterns (g : string -> list string) (exts acc : list string)
  (p : string) :
  In p (fold_left
          (fun font_files ext => (font_files ++ g ext) ++ g (PyStr.upper ext))
          exts acc) <->
  In p acc \/
  exists ext, In ext exts /\ (In p (g ext) \/ In p (g (PyStr.upper ext))).
Proof.
  revert acc. induction exts as [|e exts IH]; intros acc; simpl.
  - split; [by left|]. by intros [?|(? & [] & _)].
  - rewrite IH, !in_app_iff. split.
    + intros [[[?|?]|?]|(ext & Hin & Hg)]; eauto 6.
    + intros [?|(ext & [<-|Hin] & [?|?])]; eauto 7.
Qed.

Lemma allowed_suffix_literal (ext : string) :
  In ext allowed_suffixes ->
  Glob.has_wildcard ext = false /\
  Glob.has_wildcard (PyStr.upper ext) = false.
Proof.
  simpl. intros [<-|[<-|[<-|[<-|[<-|[]]]]]]; by split.
Qed.

(** C9 (amended). Font discovery returns exactly the paths of the
    entries of the source directory itself whose name does not start
    with a dot and ends in one of [.ttf], [.otf], [.woff], [.woff2],
    [.ttc] written entirely in lower case or entirely in upper case;
    it does not look into subdirectories, and it returns the empty
    list, not an error, when no entry is selected or the directory
    cannot be listed. *)
Theorem C9_font_discovery m (d : string) :
  (forall p,
     In p (get_font_files m d) <->
     exists sz entries name,
       m !! d = Some (Dir sz entries) /\ In name entries /\
       selected name /\ p = OsPath.join d name) /\
  ((forall sz entries name,
      m !! d = Some (Dir sz entries) -> In name entries -> ~ selected name) ->
   get_font_files m d = []).
Proof.
  assert (forall p,
            In p (get_font_files m d) <->
            exists sz entries name,
              m !! d = Some (Dir sz entries) /\ In name entries /\
              selected name /\ p = OsPath.join d name) as Hiff.
  { intros p. unfold get_font_files. rewrite in_fold_patterns.
    change font_extensions with (map (String "*") allowed_suffixes).
    split.
    - intros [[]|(pat & Hin & Hg)].
      apply in_map_iff in Hin as (ext & <- & Hext).
      destruct (allowed_suffix_literal ext Hext) as [Hl Hu].
      change (PyStr.upper (String "*" ext))
        with (String "*" (PyStr.upper ext)) in Hg.
      rewrite !glob_glob_star in Hg by done.
      destruct Hg as [(sz & es & name & Em & Hn & Hh & [pre Hp] & ->)
                     |(sz & es & name & Em & Hn & Hh & [pre Hp] & ->)];
        exists sz, es, name; repeat split; try done;
        exists ext, pre; split; auto.
    - intros (sz & es & name & Em & Hn & [Hh (ext & pre & Hext & Hp)] & ->).
      right. exists (String "*" ext). split; [by apply in_map|].
      destruct (allowed_suffix_literal ext Hext) as [Hl Hu].
      change (PyStr.upper (String "*" ext))
        with (String "*" (PyStr.upper ext)).
      rewrite !glob_glob_star by done.
      destruct Hp as [Hp|Hp]; [left|right];
        exists sz, es, name; repeat split; try done; by exists pre. }
  split; [done|].
  intros Hnone. destruct (get_font_files m d) as [|p l] eqn:E; [done|].
  destruct (proj1 (Hiff p)) as (sz & es & name & Em & Hn & Hs & _).
  { by left. }
  by destruct (Hnone sz es name).
Qed.

End Discovery.

Lemma C9_font_discovery_witness :
  In "sourceFont/Serif.ttf" (get_font_files Scenario.disk "sourceFont").
Proof.
  apply (proj1 (C9_font_discovery Scenario.disk "sourceFont")).
  exists 0%N, ["Serif.ttf"; "Collection.ttc"], "Serif.ttf".
  split; [reflexivity|]. split; [by left|]. split; [|reflexivity].
  split; [reflexivity|].
  exists ".ttf", "Serif". split; [by left|]. by left.
Defined.

(** C9 as stated fails: [Font.Ttf] has the extension [ttf] up to case
    and is an entry of the source directory, yet it is not
    discovered. *)
Lemma C9_mixed_case_not_discovered :
  Scenario.disk_mixed !! "sourceFont" = Some (Dir 0 ["Font.Ttf"]) /\
  has_allowed_extension "Font.Ttf" = true /\
  get_font_files Scenario.disk_mixed "sourceFont" = [].
Proof. repeat split; reflexivity. Qed.

(* ===================================================================== *)
(** * Further properties of the subset invoker *)
(* ===================================================================== *)

Section InvokerProperties.

Context `{External}.

Implicit Types (font_file text_file output_dir output_file : string).
Implicit Types (font_index : option Z) (w : World).

(** The [try] body leaves the file system as the tool left it. *)
Lemma try_body_fs font_file text_file output_file font_index w :
  fs (snd (try_body font_file text_file output_file font_index w)) =
  snd (subprocess_run (fs w)
         (command_of font_file text_file output_file font_index)).
Proof.
  unfold try_body, bind, run, say, os_path_getsize, raise, ret.
  destruct (subprocess_run _ _) as [[e|[returncode stderr]] m']; simpl; [done|].
  destruct (returncode =? 0); simpl; [|done].
  destruct (m' !! font_file) as [src|]; simpl; [|done].
  destruct (m' !! output_file) as [out|]; simpl; [|done].
  by destruct (size_of src =? 0)%N.
Qed.

Lemma body_when_absent font_file text_file output_dir font_index w :
  fs w !! font_file = None \/ fs w !! text_file = None ->
  compress_single_font_body font_file text_file output_dir font_index w =
  (false,
   print (match fs w !! font_file with
          | None => MsgFontMissing font_file
          | Some _ => MsgTextMissing text_file
          end) w).
Proof.
  intros Habs. unfold compress_single_font_body.
  destruct (fs w !! font_file) as [src|] eqn:Ef.
  - destruct Habs as [?|Et]; [done|]. rewrite Et.
    rewrite bool_decide_eq_true_2 by eauto.
    by rewrite bool_decide_eq_false_2 by (by intros [? ?]).
  - by rewrite bool_decide_eq_false_2 by (by intros [? ?]).
Qed.

(** The file system after a job. *)
Lemma compress_single_font_fs font_file text_file output_dir font_index w :
  fs (snd (compress_single_font font_file text_file output_dir font_index w))
  = match fs w !! font_file, fs w !! text_file with
    | Some _, Some _ =>
        snd (subprocess_run (fs w)
               (command_of font_file text_file
                  (output_file_of font_file output_dir font_index)
                  font_index))
    | _, _ => fs w
    end.
Proof.
  unfold compress_single_font.
  destruct (fs w !! font_file) as [src|] eqn:Ef.
  - destruct (fs w !! text_file) as [txt|] eqn:Et.
    + rewrite body_when_present by (rewrite ?Ef, ?Et; eauto).
      pose proof (try_body_fs font_file text_file
                    (output_file_of font_file output_dir font_index)
                    font_index w) as Em.
      destruct (try_body _ _ _ _ _) as [[e|b] w']; simpl in *; [|done].
      by destruct e.
    + rewrite body_when_absent by auto. by rewrite Ef.
  - rewrite body_when_absent by auto. by rewrite Ef.
Qed.

(** X1. The invoker starts the tool exactly once when the font file and
    the character-list file both exist and not at all otherwise (the
    font file is checked first); the file system after the job is the
    one the tool left: the invoker itself creates, changes and removes
    nothing. *)
Theorem invoker_starts_tool_at_most_once
  font_file text_file output_dir font_index w :
  let cmd :=
    command_of font_file text_file
      (output_file_of font_file output_dir font_index) font_index in
  let r := compress_single_font font_file text_file output_dir font_index w in
  match fs w !! font_file, fs w !! text_file with
  | Some _, Some _ =>
      calls (snd r) = calls w ++ [cmd] /\
      fs (snd r) = snd (subprocess_run (fs w) cmd)
  | Some _, None =>
      r = (false,
           log_job (Job font_file font_index false)
             (print (MsgTextMissing text_file) w))
  | None, _ =>
      r = (false,
           log_job (Job font_file font_index false)
             (print (MsgFontMissing font_file) w))
  end.
Proof.
  intros cmd r. subst r. unfold compress_single_font.
  destruct (fs w !! font_file) as [src|] eqn:Ef.
  - destruct (fs w !! text_file) as [txt|] eqn:Et.
    + rewrite body_when_present by (rewrite ?Ef, ?Et; eauto).
      pose proof (try_body_calls font_file text_file
                    (output_file_of font_file output_dir font_index)
                    font_index w) as Ec.
      pose proof (try_body_fs font_file text_file
                    (output_file_of font_file output_dir font_index)
                    font_index w) as Em.
      destruct (try_body _ _ _ _ _) as [[e|b] w']; simpl in *; [|done].
      by destruct e.
    + rewrite body_when_absent by auto. by rewrite Ef.
  - rewrite body_when_absent by auto. by rewrite Ef.
Qed.

(** X2. When the tool cannot be started or exits with a status other than
    0, the job is a Failure and the console gets exactly one
    diagnostic: the tool-not-found text for [FileNotFoundError], the
    text of any other exception, or the error stream of the tool. *)
Theorem invoker_failure_diagnostic
  font_file text_file output_dir font_index w
  (r : exn + Z * string) (m' : gmap string node) :
  is_Some (fs w !! font_file) -> is_Some (fs w !! text_file) ->
  subprocess_run (fs w)
    (command_of font_file text_file
       (output_file_of font_file output_dir font_index) font_index)
    = (r, m') ->
  (forall stderr, r <> inr (0, stderr)) ->
  compress_single_font font_file text_file output_dir font_index w =
  (false,
   log_job (Job font_file font_index false)
     (print (match r with
             | inl FileNotFoundError => MsgToolNotFound
             | inl e => MsgError e
             | inr (_, stderr) => MsgFailed stderr
             end)
        (set_fs m'
           (log_call
              (command_of font_file text_file
                 (output_file_of font_file output_dir font_index)
                 font_index) w)))).
Proof.
  intros Hf Ht Er Hnz. unfold compress_single_font.
  rewrite body_when_present by done.
  unfold try_body, bind, run, say, ret. rewrite Er.
  destruct r as [e|[returncode stderr]]; simpl.
  - by destruct e.
  - destruct (Z.eqb_spec returncode 0) as [->|Hne]; [by destruct (Hnz stderr)|].
    done.
Qed.

(** X3. A job is reported as a Success only if both input files existed,
    the tool exited with status 0, and afterwards the output file
    exists and the font file is not empty; the console then shows the
    name of the output file and the two sizes. *)
Theorem invoker_success_means_output
  font_file text_file output_dir font_index w (w' : World) :
  compress_single_font font_file text_file output_dir font_index w
    = (true, w') ->
  let output_file := output_file_of font_file output_dir font_index in
  is_Some (fs w !! font_file) /\ is_Some (fs w !! text_file) /\
  exists stderr src out,
    subprocess_run (fs w)
      (command_of font_file text_file output_file font_index)
      = (inr (0, stderr), fs w') /\
    fs w' !! font_file = Some src /\ size_of src <> 0%N /\
    fs w' !! output_file = Some out /\
    console w' =
      console w ++ [MsgSuccess (OsPath.basename output_file);
                    MsgSizes (size_of src) (size_of out)].
Proof.
  unfold compress_single_font, compress_single_font_body.
  destruct (fs w !! font_file) as [src0|] eqn:Ef;
    [rewrite bool_decide_eq_true_2 by eauto
    |rewrite bool_decide_eq_false_2 by (by intros [? ?]); done].
  destruct (fs w !! text_file) as [txt|] eqn:Et;
    [rewrite bool_decide_eq_true_2 by eauto
    |rewrite bool_decide_eq_false_2 by (by intros [? ?]); done].
  simpl negb. cbv iota.
  unfold try_body, bind, run, say, os_path_getsize, raise, ret.
  destruct (subprocess_run _ _) as [[e|[returncode stderr]] m'] eqn:Er; simpl.
  { by destruct e. }
  destruct (Z.eqb_spec returncode 0) as [->|Hne]; simpl; [|done].
  destruct (m' !! font_file) as [src|] eqn:Es; simpl; [|done].
  destruct (m' !! output_file_of font_file output_dir font_index)
    as [out|] eqn:Eo; simpl; [|done].
  destruct (N.eqb_spec (size_of src) 0) as [E0|Hnz]; simpl; [done|].
  intros [= <-]. simpl. repeat split; eauto.
  exists stderr, src, out. repeat split; try done.
  by rewrite <- app_assoc.
Qed.

End InvokerProperties.

Lemma invoker_failure_diagnostic_witness :
  @compress_single_font Scenario.failing
    "sourceFont/a.ttf" "txt.txt" "targetFont" None
    (Scenario.world_of Scenario.disk_two)
  = (false,
     mkWorld Scenario.disk_two [MsgFailed "fonttools: error: no glyphs"]
       [["fonttools"; "subset"; "sourceFont/a.ttf"; "--text-file=txt.txt";
         "--output-file=targetFont/a-subset.ttf"]]
       [Job "sourceFont/a.ttf" None false]) /\
  console (snd (@compress_single_font Scenario.denied
                  "sourceFont/a.ttf" "txt.txt" "targetFont" None
                  (Scenario.world_of Scenario.disk_two)))
  = [MsgError (OtherError "[Errno 13] Permission denied: 'fonttools'")].
Proof.
  split.
  - rewrite (@invoker_failure_diagnostic Scenario.failing
               "sourceFont/a.ttf" "txt.txt" "targetFont" None
               (Scenario.world_of Scenario.disk_two)
               (inr (1, "fonttools: error: no glyphs")) Scenario.disk_two);
      [reflexivity | vm_compute; eauto | vm_compute; eauto | reflexivity
      | discriminate].
  - rewrite (@invoker_failure_diagnostic Scenario.denied
               "sourceFont/a.ttf" "txt.txt" "targetFont" None
               (Scenario.world_of Scenario.disk_two)
               (inl (OtherError "[Errno 13] Permission denied: 'fonttools'"))
               Scenario.disk_two);
      [reflexivity | vm_compute; eauto | vm_compute; eauto | reflexivity
      | discriminate].
Defined.

Lemma invoker_success_means_output_witness :
  exists out,
    fs (snd (@compress_single_font Scenario.installed
               "sourceFont/Serif.ttf" "txt.txt" "targetFont" None
               (Scenario.world_of Scenario.disk)))
      !! "targetFont/Serif-subset.ttf" = Some out.
Proof.
  destruct (@invoker_success_means_output Scenario.installed
              "sourceFont/Serif.ttf" "txt.txt" "targetFont" None
              (Scenario.world_of Scenario.disk)
              (snd (@compress_single_font Scenario.installed
                      "sourceFont/Serif.ttf" "txt.txt" "targetFont" None
                      (Scenario.world_of Scenario.disk))))
    as (_ & _ & stderr & src & out & _ & _ & _ & Eo & _); [reflexivity|].
  exists out. exact Eo.
Defined.

(* ===================================================================== *)
(** * Further properties of the batch orchestrator *)
(* ===================================================================== *)

Section OrchestratorProperties.

Context `{External}.

Implicit Types (t : Tally) (w : World) (s : Tally * World).
Implicit Types (js : list job) (font_files : list string).

Lemma successes_pos js :
  (0 <? successes js) = true <-> Exists (fun j => job_ok j = true) js.
Proof.
  unfold successes. rewrite Z.ltb_lt. induction js as [|j js IH]; simpl.
  - split; [lia|]. by intros ?%Exists_nil.
  - rewrite Exists_cons. destruct (job_ok j) eqn:Ej; simpl.
    + split; [by left|lia].
    + rewrite IH. split; [by right|]. by intros [?|?].
Qed.

Lemma makedirs_keeps_logs w w1 :
  os_makedirs output_dir w = (inr tt, w1) ->
  console w1 = console w /\ calls w1 = calls w /\ jobs w1 = jobs w.
Proof.
  intros Em.
  destruct (makedirs_cases w)
    as [(sz & _ & Em')|(w1' & Em' & _ & _ & Ec & Ea & Ej & _)];
    rewrite Em' in Em; [done|]. by injection Em as ->.
Qed.

(** X4. The result of the batch is [True] exactly when at least one job of
    the run succeeded; every run that ends before the loop returns
    [False]. *)
Theorem batch_result_is_some_success w (b : bool) (w' : World) :
  batch_compress_fonts w = (inr b, w') ->
  exists js,
    jobs w' = jobs w ++ js /\
    (b = true <-> Exists (fun j => job_ok j = true) js).
Proof.
  intros Eb.
  destruct (batch_cases w)
    as [(_ & E)|[(_ & _ & E)|[(_ & _ & _ & E)|[(_ & _ & w1 & Em & _ & E)
       |[(_ & _ & w1 & t & w2 & Em & _ & El & E)
        |(_ & _ & w1 & e & w2 & Em & _ & El & E)]]]]];
    rewrite E in Eb; try discriminate Eb.
  1-3: injection Eb as <- <-; exists []; simpl;
       rewrite ?app_nil_r;
       try (destruct (makedirs_keeps_logs _ _ Em) as (_ & _ & ->));
       (split; [done|]); split; [done|by intros ?%Exists_nil].
  injection Eb as <- <-. simpl.
  destruct (makedirs_keeps_logs _ _ Em) as (_ & _ & Ej1).
  destruct (reach_batch_loop w1 (get_font_files (fs w) source_dir) _
              (reach_init w1)) as (t' & Hr & Ht).
  rewrite El in Hr, Ht. simpl in Hr, Ht. rewrite <- (Ht t eq_refl) in Hr.
  destruct (reach_jobs _ _ Hr) as (js & Ej & Et).
  simpl in Ej, Et. exists js. rewrite Ej, Ej1. split; [done|].
  destruct (tally_of_counts js tally0) as (Es & _ & _).
  rewrite <- Et in Es. simpl in Es. rewrite Es.
  change (0 + successes js) with (successes js). apply successes_pos.
Qed.

(** The branches of the loop body that run one job. *)
Lemma process_font_file_single text_file output_dir font_file t w :
  PyStr.lower (OsPath.suffix font_file) <> ".ttc" \/
    (exists K, get_font_count_in_collection (fs w) font_file = inr K /\
               K <= 1) ->
  exists ok w',
    compress_single_font font_file text_file output_dir None w = (ok, w') /\
    process_font_file text_file output_dir font_file (t, w)
      = (inr (count ok t), w') /\
    jobs w' = jobs w ++ [Job font_file None ok].
Proof.
  intros Hsingle.
  destruct (run_job_spec font_file text_file output_dir None t w)
    as (ok & w' & Er & Ec & Ej).
  exists ok, w'. repeat split; try done.
  destruct (process_font_file_cases text_file output_dir font_file (t, w))
    as [(e & Ext & Ee & _)|[(K & Ext & EK & HK & _)|(_ & ->)]].
  - destruct Hsingle as [?|(K & EK & _)]; [done|]. simpl in Ee. congruence.
  - destruct Hsingle as [?|(K' & EK' & HK')]; [done|].
    simpl in EK. rewrite EK in EK'. injection EK' as <-. lia.
  - by rewrite Er.
Qed.

(** X5. A font file is handed to the invoker as one job without index
    unless it is a [.ttc] file whose count is above 1: this covers
    every other extension and the [.ttc] files that parse as a single
    font. *)
Theorem single_job_unless_fanned_out text_file output_dir font_file t w :
  PyStr.lower (OsPath.suffix font_file) <> ".ttc" \/
    (exists K, get_font_count_in_collection (fs w) font_file = inr K /\
               K <= 1) ->
  exists ok w',
    compress_single_font font_file text_file output_dir None w = (ok, w') /\
    process_font_file text_file output_dir font_file (t, w)
      = (inr (count ok t), w') /\
    jobs w' = jobs w ++ [Job font_file None ok].
Proof. apply process_font_file_single. Qed.

(** X6. A batch over font files none of which is a [.ttc] file runs one
    job per file, in the order of the list and without index, so that
    the number of jobs processed is the number of files. *)
Theorem batch_without_collections font_files t w :
  Forall (fun f => PyStr.lower (OsPath.suffix f) <> ".ttc") font_files ->
  exists (oks : list bool) (t' : Tally),
    length oks = length font_files /\
    fst (batch_loop font_files (t, w)) = inr t' /\
    jobs (snd (batch_loop font_files (t, w))) =
      jobs w ++ zip_with (fun f ok => Job f None ok) font_files oks /\
    total_fonts_processed t' =
      total_fonts_processed t + Z.of_nat (length font_files).
Proof.
  intros Hall. revert t w.
  induction Hall as [|f fl Hf Hall IH]; intros t w.
  - exists [], t. simpl. rewrite app_nil_r. repeat split; lia.
  - destruct (process_font_file_single text_file output_dir f t w
                (or_introl Hf)) as (ok & w1 & _ & Ep & Ej).
    simpl batch_loop. rewrite Ep.
    destruct (IH (count ok t) w1) as (oks & t' & El & Ef & Ejs & Et).
    exists (ok :: oks), t'. simpl length. simpl zip_with.
    rewrite Ejs, Ej, <- app_assoc, Et.
    split; [lia|]. split; [done|]. split; [done|].
    unfold count. destruct ok; simpl; lia.
Qed.

(** X7. The loop runs jobs for the listed font files only.  When it
    runs to its end, which it does whenever the fontTools library can
    be imported or no [.ttc] file is listed, every listed file has got
    at least one job, however the jobs before it ended.  Otherwise it
    ends with [UnboundLocalError] at the first [.ttc] file, and exactly
    the files before that one have got their jobs. *)
Theorem batch_jobs_cover_files font_files t w :
  (ttLib_importable = true \/
     Forall (fun f => PyStr.lower (OsPath.suffix f) <> ".ttc") font_files ->
   exists t', fst (batch_loop font_files (t, w)) = inr t') /\
  exists js,
    jobs (snd (batch_loop font_files (t, w))) = jobs w ++ js /\
    match fst (batch_loop font_files (t, w)) with
    | inr _ =>
        (length font_files <= length js)%nat /\
        forall f, In f font_files <-> exists j, In j js /\ job_file j = f
    | inl e =>
        e = UnboundLocalError /\ ttLib_importable = false /\
        exists before f after,
          font_files = before ++ f :: after /\
          PyStr.lower (OsPath.suffix f) = ".ttc" /\
          Forall (fun g => PyStr.lower (OsPath.suffix g) <> ".ttc") before /\
          forall g, In g before <-> exists j, In j js /\ job_file j = g
    end.
Proof.
  split; [apply batch_loop_completes|apply batch_loop_jobs].
Qed.

(** X8. The summary of a run that reached the loop reports the number of
    discovered files, which is positive and not above the number of
    jobs processed, and the result of the run is whether the reported
    success count is positive. *)
Theorem batch_summary_counts w (r : exn + bool) (w' : World)
  (files total ok failed : Z) :
  batch_compress_fonts w = (r, w') ->
  last (console w') = Some (MsgSummary files total ok failed) ->
  console w' <> console w ->
  files = Z.of_nat (length (get_font_files (fs w) source_dir)) /\
  0 < files <= total /\ 0 <= ok /\ 0 <= failed /\
  r = inr (0 <? ok).
Proof.
  intros Eb Elast Hne.
  destruct (batch_cases w)
    as [(_ & E)|[(_ & _ & E)|[(_ & _ & _ & E)|[(_ & _ & w1 & _ & _ & E)
       |[(_ & _ & w1 & t & w2 & Em & Hnil & El & E)
        |(_ & _ & w1 & e & w2 & Em & Hnil & El & E)]]]]];
    rewrite E in Eb; injection Eb as <- <-; simpl in Elast;
    rewrite ?last_snoc in Elast; try done.
  2:{ exfalso.
      destruct (reach_batch_loop w1 (get_font_files (fs w) source_dir) _
                  (reach_init w1)) as (t' & Hr & _).
      rewrite El in Hr. simpl in Hr.
      destruct (reach_console _ _ Hr) as (ls & Ec & Hls). simpl in Ec.
      destruct (makedirs_keeps_logs _ _ Em) as (Ec1 & _ & _).
      rewrite Ec1 in Ec. rewrite Ec in Elast, Hne.
      destruct ls as [|l ls _] using rev_ind.
      - by rewrite app_nil_r in Hne.
      - rewrite app_assoc, last_snoc in Elast. injection Elast as ->.
        apply Forall_app in Hls as [_ Hl]. inversion Hl as [|? ? Hl' _].
        by eapply Hl'. }
  injection Elast as <- <- <- <-.
  destruct (batch_loop_jobs (get_font_files (fs w) source_dir) tally0 w1)
    as (js & Ej & Hjobs).
  rewrite El in Ej, Hjobs. simpl in Ej, Hjobs. destruct Hjobs as [Hlen _].
  destruct (reach_batch_loop w1 (get_font_files (fs w) source_dir) _
              (reach_init w1)) as (t' & Hr & Ht).
  rewrite El in Hr, Ht. simpl in Hr, Ht. rewrite <- (Ht t eq_refl) in Hr.
  destruct (reach_jobs _ _ Hr) as (js' & Ej' & Et).
  simpl in Ej', Et.
  rewrite Ej in Ej'. apply app_inv_head in Ej'. subst js'.
  destruct (tally_of_counts js tally0) as (Es & Ef & Etot).
  rewrite <- Et in Es, Ef, Etot. simpl in Es, Ef, Etot.
  rewrite Es, Ef, Etot. unfold successes, failures.
  destruct (get_font_files (fs w) source_dir); [done|]. simpl in *.
  repeat split; lia.
Qed.

Lemma run_job_preserves (P : gmap string node -> Prop)
  font_file text_file output_dir font_index s :
  (forall m cmd, P m -> P (snd (subprocess_run m cmd))) ->
  P (fs (snd s)) ->
  P (fs (snd (run_job font_file text_file output_dir font_index s))).
Proof.
  intros Htool Hs. destruct s as [t w]. unfold run_job.
  pose proof (compress_single_font_fs font_file text_file output_dir
                font_index w) as Em.
  destruct (compress_single_font _ _ _ _ _) as [ok w'] eqn:Ec. simpl in *.
  rewrite Em.
  destruct (fs w !! font_file); [destruct (fs w !! text_file)|]; try done.
  by apply Htool.
Qed.

Lemma process_font_file_preserves (P : gmap string node -> Prop)
  text_file output_dir font_file s :
  (forall m cmd, P m -> P (snd (subprocess_run m cmd))) ->
  P (fs (snd s)) ->
  P (fs (snd (process_font_file text_file output_dir font_file s))).
Proof.
  intros Htool Hs.
  destruct (process_font_file_cases text_file output_dir font_file s)
    as [(e & _ & _ & ->)|[(K & _ & _ & _ & ->)|(_ & ->)]]; [done| |].
  - unfold returned. simpl snd. generalize (range K).
    intros idxs. revert s Hs.
    induction idxs as [|i idxs IH]; intros s Hs; [done|].
    simpl. apply IH. by apply run_job_preserves.
  - unfold returned. simpl snd. by apply run_job_preserves.
Qed.

Lemma batch_loop_preserves (P : gmap string node -> Prop) font_files s :
  (forall m cmd, P m -> P (snd (subprocess_run m cmd))) ->
  P (fs (snd s)) ->
  P (fs (snd (batch_loop font_files s))).
Proof.
  intros Htool. revert s.
  induction font_files as [|f fl IH]; intros s Hs; [done|].
  simpl.
  pose proof (process_font_file_preserves P text_file output_dir f s
                Htool Hs) as Hp.
  destruct (process_font_file text_file output_dir f s) as [[e|t1] w1];
    [done|]. by apply IH.
Qed.

(** X9. A batch run changes the file system only by creating the output
    directory when it is absent and through the runs of the tool: a
    property of the file system that these two steps preserve still
    holds when the run ends, whichever way it ends. *)
Theorem batch_changes_files_through_tool_only
  (P : gmap string node -> Prop) w (r : exn + bool) (w' : World) :
  (forall m cmd, P m -> P (snd (subprocess_run m cmd))) ->
  (forall m, P m -> m !! output_dir = None ->
             P (<[output_dir := Dir 0 []]> m)) ->
  P (fs w) ->
  batch_compress_fonts w = (r, w') ->
  P (fs w').
Proof.
  intros Htool Hmk Hw Eb.
  assert (forall w1, os_makedirs output_dir w = (inr tt, w1) -> P (fs w1))
    as Hw1.
  { intros w1. unfold os_makedirs.
    destruct (fs w !! output_dir) as [[sz|sz es]|] eqn:Eo; intros [= <-];
      [done|]. simpl. by apply Hmk. }
  destruct (batch_cases w)
    as [(_ & E)|[(_ & _ & E)|[(_ & _ & _ & E)|[(_ & _ & w1 & Em & _ & E)
       |[(_ & _ & w1 & t & w2 & Em & _ & El & E)
        |(_ & _ & w1 & e & w2 & Em & _ & El & E)]]]]];
    rewrite E in Eb; injection Eb as <- <-; simpl; try done.
  - by apply Hw1.
  - pose proof (batch_loop_preserves P (get_font_files (fs w) source_dir)
                  (tally0, w1) Htool (Hw1 w1 Em)) as Hl.
    by rewrite El in Hl.
  - pose proof (batch_loop_preserves P (get_font_files (fs w) source_dir)
                  (tally0, w1) Htool (Hw1 w1 Em)) as Hl.
    by rewrite El in Hl.
Qed.

End OrchestratorProperties.

Lemma batch_result_is_some_success_witness :
  exists js,
    jobs (snd (@batch_compress_fonts Scenario.installed
                 (Scenario.world_of Scenario.disk))) = [] ++ js /\
    (true = true <-> Exists (fun j => job_ok j = true) js).
Proof.
  apply (@batch_result_is_some_success Scenario.installed
           (Scenario.world_of Scenario.disk) true
           (snd (@batch_compress_fonts Scenario.installed
                   (Scenario.world_of Scenario.disk)))).
  vm_compute. reflexivity.
Defined.

Lemma single_job_unless_fanned_out_witness :
  exists ok w',
    @process_font_file Scenario.installed text_file output_dir
      "sourceFont/Serif.ttf" (tally0, Scenario.world_of Scenario.disk)
      = (inr (count ok tally0), w') /\
    jobs w' = [] ++ [Job "sourceFont/Serif.ttf" None ok].
Proof.
  destruct (@single_job_unless_fanned_out Scenario.installed
              text_file output_dir "sourceFont/Serif.ttf" tally0
              (Scenario.world_of Scenario.disk))
    as (ok & w' & _ & Ep & Ej); [left; discriminate|].
  exists ok, w'. exact (conj Ep Ej).
Defined.

Lemma batch_without_collections_witness :
  exists t',
    fst (@batch_loop Scenario.installed
           ["sourceFont/a.ttf"; "sourceFont/b.otf"]
           (tally0, Scenario.world_of Scenario.disk_two)) = inr t' /\
    total_fonts_processed t' = 0 + Z.of_nat 2.
Proof.
  destruct (@batch_without_collections Scenario.installed
              ["sourceFont/a.ttf"; "sourceFont/b.otf"] tally0
              (Scenario.world_of Scenario.disk_two))
    as (oks & t' & _ & Ef & _ & Et); [repeat constructor; discriminate|].
  exists t'. exact (conj Ef Et).
Defined.

Lemma batch_summary_counts_witness :
  2 = Z.of_nat (length (get_font_files Scenario.disk source_dir)) /\
  0 < 2 <= 3 /\ 0 <= 3 /\ 0 <= 0 /\
  fst (@batch_compress_fonts Scenario.installed
         (Scenario.world_of Scenario.disk)) = inr (0 <? 3).
Proof.
  apply (@batch_summary_counts Scenario.installed
           (Scenario.world_of Scenario.disk)
           (fst (@batch_compress_fonts Scenario.installed
                   (Scenario.world_of Scenario.disk)))
           (snd (@batch_compress_fonts Scenario.installed
                   (Scenario.world_of Scenario.disk)))
           2 3 3 0);
    [vm_compute; reflexivity | vm_compute; reflexivity
    | vm_compute; discriminate].
Defined.

Lemma batch_changes_files_through_tool_only_witness :
  fs (snd (@batch_compress_fonts Scenario.silent
             (Scenario.world_of Scenario.disk_two))) !! "txt.txt"
  = Some (File 10).
Proof.
  apply (@batch_changes_files_through_tool_only Scenario.silent
           (fun m => m !! "txt.txt" = Some (File 10))
           (Scenario.world_of Scenario.disk_two)
           (fst (@batch_compress_fonts Scenario.silent
                   (Scenario.world_of Scenario.disk_two)))).
  - intros m cmd E. exact E.
  - intros m E _. rewrite lookup_insert_ne by discriminate. exact E.
  - reflexivity.
  - apply surjective_pairing.
Defined.

Lemma batch_jobs_cover_files_witness :
  exists t',
    fst (@batch_loop Scenario.installed
           ["sourceFont/Serif.ttf"; "sourceFont/Collection.ttc"]
           (tally0, Scenario.world_of Scenario.disk)) = inr t'.
Proof.
  apply (proj1 (@batch_jobs_cover_files Scenario.installed
                  ["sourceFont/Serif.ttf"; "sourceFont/Collection.ttc"]
                  tally0 (Scenario.world_of Scenario.disk))).
  left. reflexivity.
Defined.

(** Without fontTools the run ends at the collection, after the job of
    the font before it. *)
Example batch_stops_at_collection_without_library :
  (let '(r, w) := @batch_compress_fonts Scenario.uninstalled
                    (Scenario.world_of Scenario.disk) in
   (r, console w, jobs w)) =
  (inl UnboundLocalError, [MsgToolNotFound],
   [Job "sourceFont/Serif.ttf" None false]).
Proof. reflexivity. Qed.

(* ===================================================================== *)
(** * Further facts about names and paths *)
(* ===================================================================== *)

Lemma rfind_app_none (c : ascii) (a b : string) :
  PyStr.rfind c (a +:+ b) = None <->
  PyStr.rfind c a = None /\ PyStr.rfind c b = None.
Proof.
  induction a as [|x a IH].
  - rewrite sapp_nil_l. simpl. tauto.
  - rewrite sapp_cons. simpl.
    destruct (PyStr.rfind c (a +:+ b)), (PyStr.rfind c a), (PyStr.rfind c b),
      (Ascii.eqb x c); simpl in *; intuition congruence.
Qed.

Lemma rfind_none_head (c : ascii) (s : string) :
  PyStr.rfind c s = None -> PyStr.startswith (String c "") s = false.
Proof.
  destruct s as [|x s]; [done|]. simpl.
  destruct (PyStr.rfind c s); [done|].
  rewrite (Ascii.eqb_sym c x). by destruct (Ascii.eqb x c).
Qed.

Lemma take_drop (i : nat) (s : string) : PyStr.take i s +:+ PyStr.drop i s = s.
Proof.
  revert s. induction i as [|i IH]; intros [|x s]; simpl; try done.
  by rewrite sapp_cons, IH.
Qed.

Lemma split_nonempty (sep : ascii) (s : string) : PyStr.split sep s <> [].
Proof.
  destruct s as [|x s]; [done|]. simpl.
  destruct (Ascii.eqb x sep); [done|]. by destruct (PyStr.split sep s).
Qed.

Lemma split_none (sep : ascii) (s : string) :
  PyStr.rfind sep s = None -> PyStr.split sep s = [s].
Proof.
  induction s as [|x s IH]; [done|]. simpl.
  destruct (PyStr.rfind sep s); [done|].
  destruct (Ascii.eqb x sep); [done|]. intros _. by rewrite IH.
Qed.

Lemma split_app_sep (sep : ascii) (a b : string) :
  PyStr.split sep (a +:+ String sep b) = PyStr.split sep a ++ PyStr.split sep b.
Proof.
  induction a as [|x a IH].
  - rewrite sapp_nil_l. simpl. by rewrite Ascii.eqb_refl.
  - rewrite sapp_cons. simpl. rewrite IH.
    destruct (Ascii.eqb x sep); [done|].
    pose proof (split_nonempty sep a).
    by destruct (PyStr.split sep a).
Qed.

(** The components of a split contain no separator. *)
Lemma split_components (sep : ascii) (s x : string) :
  In x (PyStr.split sep s) -> PyStr.rfind sep x = None.
Proof.
  revert x. induction s as [|c s IH]; intros x.
  - by intros [<-|[]].
  - simpl. destruct (Ascii.eqb c sep) eqn:Ec.
    + intros [<-|Hx]; [done|]. by apply IH.
    + pose proof (split_nonempty sep s).
      destruct (PyStr.split sep s) as [|y ys]; [done|].
      intros [<-|Hx].
      * simpl. rewrite (IH y) by (by left). by rewrite Ec.
      * apply IH. by right.
Qed.

Lemma name_no_slash (p : string) : PyStr.rfind "/" (OsPath.name p) = None.
Proof.
  unfold OsPath.name, OsPath.parts.
  assert (forall l, (forall x, In x l -> PyStr.rfind "/" x = None) ->
            PyStr.rfind "/" (List.last l "") = None) as Hlast.
  { induction l as [|x l IH]; [done|]. intros Hl.
    destruct l as [|y l]; [apply Hl; by left|].
    apply IH. intros z Hz. apply Hl. by right. }
  apply Hlast. intros x Hx. apply filter_In in Hx as [Hx _].
  by apply (split_components "/" p).
Qed.

Lemma stem_suffix_no_slash (p : string) :
  PyStr.rfind "/" (OsPath.stem p) = None /\
  PyStr.rfind "/" (OsPath.suffix p) = None.
Proof.
  pose proof (name_no_slash p) as Hn. unfold OsPath.stem, OsPath.suffix.
  destruct (OsPath.suffix_pos (OsPath.name p)) as [i|]; [|done].
  rewrite <- (take_drop i (OsPath.name p)) in Hn.
  by apply rfind_app_none in Hn.
Qed.

Lemma lower_no_slash (s : string) :
  PyStr.rfind "/" s = None -> PyStr.rfind "/" (PyStr.lower s) = None.
Proof.
  unfold PyStr.lower. induction s as [|c s IH]; [done|]. simpl.
  destruct (PyStr.rfind "/" s); [done|]. rewrite IH by done.
  assert (Ascii.eqb (PyStr.lower_char c) "/" = Ascii.eqb c "/") as ->
    by (by destruct c as [[|] [|] [|] [|] [|] [|] [|] [|]]).
  done.
Qed.

Lemma str_no_slash (z : Z) : PyStr.rfind "/" (PyStr.str z) = None.
Proof.
  assert (forall d, PyStr.rfind "/" (NilEmpty.string_of_uint d) = None) as Hu
    by (induction d; simpl; by rewrite ?IHd).
  assert (forall d, PyStr.rfind "/" (NilZero.string_of_uint d) = None) as Hz
    by (intros d; destruct d; try apply Hu; done).
  unfold PyStr.str. destruct (Z.to_int z) as [d|d]; simpl; [apply Hz|].
  by rewrite Hz.
Qed.

(** A path ends in a slash when its reverse starts with one. *)
Lemma rev_app_head (s acc : string) :
  s <> "" -> PyStr.startswith "/" (String.rev_app s acc) = true ->
  exists q, s = q +:+ "/".
Proof.
  revert acc. induction s as [|x s IH]; intros acc Hne Hs; [done|].
  destruct s as [|y s].
  - cbn [String.rev_app PyStr.startswith] in Hs.
    apply andb_true_iff in Hs as [Hx _].
    apply Ascii.eqb_eq in Hx. subst x. by exists "".
  - destruct (IH (String x acc)) as [q Hq]; [done|done|].
    exists (String x q). by rewrite sapp_cons, <- Hq.
Qed.

(** [os.path.join] with a name without slash either leaves the name
    alone (empty directory) or puts it after a slash. *)
Lemma join_cases (d n : string) :
  PyStr.rfind "/" n = None ->
  OsPath.join d n = n \/ exists q, OsPath.join d n = q +:+ "/" +:+ n.
Proof.
  intros Hn. unfold OsPath.join.
  rewrite (rfind_none_head "/" n Hn).
  destruct d as [|x d]; [by left|]. right.
  destruct (PyStr.startswith "/" (String.rev (String x d))) eqn:Er.
  - apply rev_app_head in Er as [q ->]; [|done].
    exists q. by rewrite sapp_assoc.
  - by exists (String x d).
Qed.

Lemma basename_join (d n : string) :
  PyStr.rfind "/" n = None -> OsPath.basename (OsPath.join d n) = n.
Proof.
  intros Hn. unfold OsPath.basename.
  destruct (join_cases d n Hn) as [->|[q ->]].
  - by rewrite split_none.
  - change (q +:+ "/" +:+ n) with (q +:+ String "/" n).
    rewrite split_app_sep, (split_none "/" n Hn). apply last_last.
Qed.

Lemma name_join (d n : string) :
  PyStr.rfind "/" n = None -> n <> "" -> n <> "." ->
  OsPath.name (OsPath.join d n) = n.
Proof.
  intros Hn Hne Hdot. unfold OsPath.name, OsPath.parts.
  assert (negb (String.eqb n "" || String.eqb n ".") = true) as Hkeep.
  { apply negb_true_iff, orb_false_iff.
    split; by apply String.eqb_neq. }
  destruct (join_cases d n Hn) as [->|[q ->]].
  - rewrite split_none by done. simpl. by rewrite Hkeep.
  - change (q +:+ "/" +:+ n) with (q +:+ String "/" n).
    rewrite split_app_sep, (split_none "/" n Hn), List.filter_app. simpl.
    rewrite Hkeep. apply last_last.
Qed.

(** Two endings of one string: the shorter one ends the longer one. *)
Lemma common_ending (pre pre' a b : string) :
  pre +:+ a = pre' +:+ b ->
  (String.length a <= String.length b)%nat ->
  exists c, b = c +:+ a.
Proof.
  revert pre. induction pre' as [|x pre' IH]; intros pre E Hlen.
  - exists pre. by rewrite sapp_nil_l in E.
  - destruct pre as [|y pre].
    + apply (f_equal String.length) in E.
      rewrite sapp_nil_l, sapp_cons in E. simpl in E.
      rewrite sapp_length in E. lia.
    + rewrite !sapp_cons in E. injection E as _ E. by apply (IH pre).
Qed.

Lemma endswith_app (pre suf : string) : PyStr.endswith suf (pre +:+ suf) = true.
Proof.
  unfold PyStr.endswith, PyStr.len. rewrite sapp_length.
  replace (String.length pre + String.length suf - String.length suf)%nat
    with (String.length pre) by lia.
  rewrite drop_app, String.eqb_refl, andb_true_r.
  apply Nat.leb_le. lia.
Qed.

(** No name ends in two endings neither of which ends the other. *)
Lemma endings_conflict (a b n : string) :
  PyStr.endswith a b || PyStr.endswith b a = false ->
  (exists pre, n = pre +:+ a) -> (exists pre, n = pre +:+ b) -> False.
Proof.
  intros Hc [pre ->] [pre' E]. apply orb_false_iff in Hc as [Hab Hba].
  destruct (Nat.le_gt_cases (String.length a) (String.length b)) as [Hl|Hl].
  - destruct (common_ending _ _ _ _ E Hl) as [c ->].
    by rewrite endswith_app in Hab.
  - symmetry in E. destruct (common_ending _ _ _ _ E) as [c ->]; [lia|].
    by rewrite endswith_app in Hba.
Qed.

(* ===================================================================== *)
(** * Further properties of naming, inspection and discovery *)
(* ===================================================================== *)

(** X10. The output file of a job is always a direct child of the output
    directory: its name starts with the stem of the input followed by
    a dash, contains no slash, and is the base name of the output
    path (the name the success line shows). *)
Theorem output_file_is_child_of_output_dir
  (font_file output_dir : string) (font_index : option Z) :
  exists rest,
    output_file_of font_file output_dir font_index
      = OsPath.join output_dir (OsPath.stem font_file +:+ "-" +:+ rest) /\
    PyStr.rfind "/" (OsPath.stem font_file +:+ "-" +:+ rest) = None /\
    OsPath.basename (output_file_of font_file output_dir font_index)
      = OsPath.stem font_file +:+ "-" +:+ rest.
Proof.
  destruct (stem_suffix_no_slash font_file) as [Hstem Hsuf].
  apply lower_no_slash in Hsuf.
  assert (exists rest,
            output_file_of font_file output_dir font_index
              = OsPath.join output_dir (OsPath.stem font_file +:+ "-" +:+ rest) /\
            PyStr.rfind "/" rest = None) as (rest & E & Hrest).
  { unfold output_file_of. destruct font_index as [i|].
    - exists (PyStr.str i +:+ "-subset.ttf"). split; [done|].
      apply rfind_app_none. split; [apply str_no_slash|done].
    - destruct (PyStr.lower (OsPath.suffix font_file) =? ".ttc")%string.
      + by exists "subset.ttf".
      + exists ("subset" +:+ PyStr.lower (OsPath.suffix font_file)).
        split; [done|]. by apply rfind_app_none. }
  exists rest.
  assert (PyStr.rfind "/" (OsPath.stem font_file +:+ "-" +:+ rest) = None)
    as Hname.
  { apply rfind_app_none. split; [done|].
    by apply (rfind_app_none "/" "-" rest). }
  split; [done|]. split; [done|].
  rewrite E. by apply basename_join.
Qed.

Section InspectorProperties.

Context `{External}.

(** A found range is an occurrence of the range text followed by a
    digit. *)
Lemma search_range_inv (s g : string) :
  Re.search_range s = Some g ->
  exists a d b,
    s = a +:+ "between 0 and " +:+ String d b /\ PyStr.is_digit d = true.
Proof.
  induction s as [|c s IH]; rewrite search_range_eq.
  - by vm_compute.
  - destruct (Re.match_range (String c s)) as [g'|] eqn:E.
    + intros _. apply match_range_inv in E as (d & b & E & Hd).
      by exists "", d, b.
    + intros Hs. destruct (IH Hs) as (a & d & b & -> & Hd).
      by exists (String c a), d, b.
Qed.

(** X11. The inspector never returns a negative count, and it returns a
    count above 1 (the only case in which the orchestrator fans out)
    only when parsing raised the collection error with a message that
    contains the range text followed by a digit.  It raises only when
    the fontTools library cannot be imported, and then it raises
    [UnboundLocalError] whatever the file. *)
Theorem inspector_count_bounds (m : gmap string node) (font_file : string) :
  (forall k,
     get_font_count_in_collection m font_file = inr k ->
     0 <= k /\
     (1 < k ->
      exists msg a d b,
        TTFont m font_file = inl (TTLibFileIsCollectionError msg) /\
        msg = a +:+ "between 0 and " +:+ String d b /\
        PyStr.is_digit d = true)) /\
  (forall e,
     get_font_count_in_collection m font_file = inl e ->
     e = UnboundLocalError /\ ttLib_importable = false) /\
  (ttLib_importable = false ->
   get_font_count_in_collection m font_file = inl UnboundLocalError).
Proof.
  split; [|split; [apply inspector_raises|]].
  - unfold get_font_count_in_collection.
    destruct ttLib_importable; simpl; [|done].
    destruct (TTFont m font_file) as [e|u];
      [|intros k [= <-]; split; lia].
    destruct e as [| | | |msg|msg]; try (intros k [= <-]; split; lia).
    destruct (Re.search_range msg) as [g|] eqn:Es;
      [|intros k [= <-]; split; lia].
    destruct (search_range_parses _ _ Es) as (n & -> & Hn).
    intros k [= <-]. split; [lia|]. intros _.
    destruct (search_range_inv _ _ Es) as (a & d & b & E & Hd).
    by exists msg, a, d, b.
  - intros Hi. unfold get_font_count_in_collection. by rewrite Hi.
Qed.

End InspectorProperties.

Lemma inspector_count_bounds_witness :
  (exists msg a d b,
     Scenario.parse Scenario.disk "sourceFont/Collection.ttc"
       = inl (TTLibFileIsCollectionError msg) /\
     msg = a +:+ "between 0 and " +:+ String d b /\
     PyStr.is_digit d = true) /\
  @get_font_count_in_collection Scenario.uninstalled Scenario.disk
    "sourceFont/Collection.ttc" = inl UnboundLocalError.
Proof.
  split.
  - apply (proj1 (@inspector_count_bounds Scenario.installed Scenario.disk
                    "sourceFont/Collection.ttc") 2); [reflexivity|lia].
  - apply (proj2 (proj2 (@inspector_count_bounds Scenario.uninstalled
                           Scenario.disk "sourceFont/Collection.ttc"))).
    reflexivity.
Defined.

Section DiscoveryProperties.

Implicit Types (m : gmap string node) (d p name : string).

(** The paths font discovery returns. *)
Lemma in_get_font_files m d p :
  In p (get_font_files m d) <->
  exists sz entries name,
    m !! d = Some (Dir sz entries) /\ In name entries /\
    selected name /\ p = OsPath.join d name.
Proof.
  unfold get_font_files. rewrite in_fold_patterns.
  change font_extensions with (map (String "*") allowed_suffixes).
  split.
  - intros [[]|(pat & Hin & Hg)].
    apply in_map_iff in Hin as (ext & <- & Hext).
    destruct (allowed_suffix_literal ext Hext) as [Hl Hu].
    change (PyStr.upper (String "*" ext))
      with (String "*" (PyStr.upper ext)) in Hg.
    rewrite !glob_glob_star in Hg by done.
    destruct Hg as [(sz & es & name & Em & Hn & Hh & [pre Hp] & ->)
                   |(sz & es & name & Em & Hn & Hh & [pre Hp] & ->)];
      exists sz, es, name; repeat split; try done;
      exists ext, pre; split; auto.
  - intros (sz & es & name & Em & Hn & [Hh (ext & pre & Hext & Hp)] & ->).
    right. exists (String "*" ext). split; [by apply in_map|].
    destruct (allowed_suffix_literal ext Hext) as [Hl Hu].
    change (PyStr.upper (String "*" ext))
      with (String "*" (PyStr.upper ext)).
    rewrite !glob_glob_star by done.
    destruct Hp as [Hp|Hp]; [left|right];
      exists sz, es, name; repeat split; try done; by exists pre.
Qed.

(** The stem and the suffix of a discovered path. *)
Lemma visible_name_parts d name pre e :
  PyStr.rfind "/" name = None -> Glob._ishidden name = false ->
  name = pre +:+ "." +:+ e -> e <> "" -> PyStr.rfind "." e = None ->
  pre <> "" /\
  OsPath.name (OsPath.join d name) = pre +:+ "." +:+ e /\
  OsPath.stem (OsPath.join d name) = pre /\
  OsPath.suffix (OsPath.join d name) = "." +:+ e.
Proof.
  intros Hs Hh -> He Hdot.
  assert (pre <> "") as Hpre by (by intros ->).
  assert (OsPath.name (OsPath.join d (pre +:+ "." +:+ e))
          = pre +:+ "." +:+ e) as En.
  { apply name_join; [done| |].
    - intros E. apply (f_equal String.length) in E.
      rewrite sapp_length in E. destruct pre; [done|]. simpl in E. lia.
    - intros E. apply (f_equal String.length) in E.
      rewrite !sapp_length in E. destruct pre; [done|]. simpl in E. lia. }
  destruct (stem_suffix_of_name _ _ _ En Hpre He Hdot) as [Est Esu].
  done.
Qed.

(** X12. Every discovered path has a non-empty stem and a suffix that is,
    up to case, one of the five supported ones: the orchestrator's
    test for [.ttc] and the naming of the output see a proper
    extension. *)
Theorem discovered_files_have_supported_suffix m d p :
  (forall sz entries name,
     m !! d = Some (Dir sz entries) -> In name entries ->
     PyStr.rfind "/" name = None) ->
  In p (get_font_files m d) ->
  In (PyStr.lower (OsPath.suffix p)) allowed_suffixes /\
  OsPath.stem p <> "" /\
  OsPath.name p = OsPath.stem p +:+ OsPath.suffix p.
Proof.
  intros Hslash Hp.
  apply in_get_font_files in Hp
    as (sz & es & name & Em & Hn & [Hh (ext & pre & Hext & Hend)] & ->).
  specialize (Hslash sz es name Em Hn).
  assert (exists e,
            name = pre +:+ "." +:+ e /\ e <> "" /\
            PyStr.rfind "." e = None /\
            In (PyStr.lower ("." +:+ e)) allowed_suffixes) as (e & E & He & Hd & Hl).
  { simpl in Hext.
    destruct Hext as [<-|[<-|[<-|[<-|[<-|[]]]]]]; destruct Hend as [E|E];
      [exists "ttf"|exists "TTF"|exists "otf"|exists "OTF"
      |exists "woff"|exists "WOFF"|exists "woff2"|exists "WOFF2"
      |exists "ttc"|exists "TTC"];
      (split; [exact E|]); (split; [discriminate|]);
      (split; [reflexivity|]); vm_compute; tauto. }
  destruct (visible_name_parts d name pre e Hslash Hh E He Hd)
    as (Hpre & En & Est & Esu).
  rewrite En, Est, Esu. done.
Qed.

Lemma join_inj (d a b : string) :
  PyStr.rfind "/" a = None -> PyStr.rfind "/" b = None ->
  OsPath.join d a = OsPath.join d b -> a = b.
Proof.
  intros Ha Hb. unfold OsPath.join.
  rewrite (rfind_none_head "/" a Ha), (rfind_none_head "/" b Hb).
  destruct d as [|x d]; [done|].
  destruct (PyStr.startswith "/" (String.rev (String x d))); intros E.
  - by apply sapp_inv_head in E.
  - by apply sapp_inv_head, (sapp_inv_head "/") in E.
Qed.

Lemma NoDup_lfilter {A} (f : A -> bool) (l : list A) :
  NoDup l -> NoDup (List.filter f l).
Proof.
  induction 1 as [|x l Hx Hl IH]; simpl; [constructor|].
  destruct (f x); [|done]. constructor; [|done].
  rewrite list_elem_of_In, filter_In. rewrite list_elem_of_In in Hx. tauto.
Qed.

Lemma NoDup_glob_glob m d pat :
  (forall sz entries,
     m !! d = Some (Dir sz entries) ->
     NoDup entries /\
     forall name, In name entries -> PyStr.rfind "/" name = None) ->
  NoDup (glob_glob m d pat).
Proof.
  intros Hdir. unfold glob_glob, Glob._glob1.
  destruct (m !! d) as [[sz|sz entries]|] eqn:Em;
    try (destruct (Glob._ishidden pat); simpl; constructor).
  destruct (Hdir sz entries eq_refl) as [Hnd Hslash].
  apply NoDup_fmap_2_strong.
  - intros a b Ha Hb. apply join_inj.
    + apply Hslash. rewrite list_elem_of_In in Ha.
      apply filter_In in Ha as [Ha _].
      destruct (Glob._ishidden pat); [done|]. by apply filter_In in Ha as [Ha _].
    + apply Hslash. rewrite list_elem_of_In in Hb.
      apply filter_In in Hb as [Hb _].
      destruct (Glob._ishidden pat); [done|]. by apply filter_In in Hb as [Hb _].
  - apply NoDup_lfilter. destruct (Glob._ishidden pat); [done|].
    by apply NoDup_lfilter.
Qed.

(** Two patterns with incompatible endings select different paths. *)
Lemma glob_star_disjoint m d (a b : string) :
  Glob.has_wildcard a = false -> Glob.has_wildcard b = false ->
  PyStr.endswith a b || PyStr.endswith b a = false ->
  (forall sz entries name,
     m !! d = Some (Dir sz entries) -> In name entries ->
     PyStr.rfind "/" name = None) ->
  forall p, In p (glob_glob m d (String "*" a)) ->
            In p (glob_glob m d (String "*" b)) -> False.
Proof.
  intros Ha Hb Hc Hslash p Hpa Hpb.
  apply glob_glob_star in Hpa as (sz & es & n1 & Em & Hn1 & _ & Hp1 & ->);
    [|done].
  apply glob_glob_star in Hpb as (sz' & es' & n2 & Em' & Hn2 & _ & Hp2 & E);
    [|done].
  apply join_inj in E;
    [|exact (Hslash _ _ _ Em Hn1)|exact (Hslash _ _ _ Em' Hn2)].
  subst n2.
  by apply (endings_conflict a b n1).
Qed.

Lemma NoDup_flat_map_disjoint {A B} (f : A -> list B) (l : list A) :
  (forall a, In a l -> NoDup (f a)) ->
  ForallOrdPairs (fun a a' => forall x, In x (f a) -> In x (f a') -> False) l ->
  NoDup (flat_map f l).
Proof.
  intros Hnd Hpairs. induction Hpairs as [|a l Ha Hl IH]; simpl; [constructor|].
  apply NoDup_app. split; [apply Hnd; by left|]. split.
  - intros x Hx Hx'. rewrite list_elem_of_In in Hx, Hx'.
    apply in_flat_map in Hx' as (a' & Ha' & Hx').
    rewrite List.Forall_forall in Ha. by apply (Ha a' Ha' x).
  - apply IH. intros a' Ha'. apply Hnd. by right.
Qed.

(** X13. Font discovery returns no path twice, provided the listing of the
    source directory has no entry twice and no entry with a slash:
    no font is subset twice in one run. *)
Theorem discovery_has_no_duplicates m d :
  (forall sz entries,
     m !! d = Some (Dir sz entries) ->
     NoDup entries /\
     forall name, In name entries -> PyStr.rfind "/" name = None) ->
  NoDup (get_font_files m d).
Proof.
  intros Hdir.
  assert (forall sz entries name,
            m !! d = Some (Dir sz entries) -> In name entries ->
            PyStr.rfind "/" name = None) as Hslash.
  { intros sz es name Em Hn. by apply (Hdir sz es Em). }
  assert (get_font_files m d =
          flat_map (glob_glob m d)
            ["*.ttf"; "*.TTF"; "*.otf"; "*.OTF"; "*.woff"; "*.WOFF";
             "*.woff2"; "*.WOFF2"; "*.ttc"; "*.TTC"]) as ->.
  { unfold get_font_files, font_extensions. cbn [fold_left flat_map].
    rewrite <- !app_assoc, app_nil_r. reflexivity. }
  apply NoDup_flat_map_disjoint.
  - intros pat _. by apply NoDup_glob_glob.
  - repeat constructor;
      apply glob_star_disjoint; try reflexivity; exact Hslash.
Qed.

End DiscoveryProperties.

Lemma discovered_files_have_supported_suffix_witness :
  In (PyStr.lower (OsPath.suffix "sourceFont/Collection.ttc")) allowed_suffixes /\
  OsPath.stem "sourceFont/Collection.ttc" <> "" /\
  OsPath.name "sourceFont/Collection.ttc"
    = OsPath.stem "sourceFont/Collection.ttc"
      +:+ OsPath.suffix "sourceFont/Collection.ttc".
Proof.
  apply (discovered_files_have_supported_suffix Scenario.disk "sourceFont").
  - intros sz entries name Em Hn. vm_compute in Em. injection Em as _ <-.
    destruct Hn as [<-|[<-|[]]]; reflexivity.
  - vm_compute. tauto.
Defined.

Lemma discovery_has_no_duplicates_witness :
  NoDup (get_font_files Scenario.disk "sourceFont").
Proof.
  apply discovery_has_no_duplicates.
  intros sz entries Em. vm_compute in Em. injection Em as _ <-. split.
  - repeat constructor; rewrite list_elem_of_In; simpl; intuition discriminate.
  - intros name [<-|[<-|[]]]; reflexivity.
Defined.
